(** * dashboardbikesharing.py: a shallow embedding and its checked properties

    The script is one render pass, run top to bottom on every interaction:
    load a table, show its summary, classify its columns, draw the charts
    the widgets ask for.  The embedding follows it block by block.

    - Tables are records of typed columns; float64 cells are IEEE binary64
      values ([PrimFloat]), int64 cells are integers.
    - The calls into streamlit, matplotlib and seaborn are recorded, in
      program order, as a trace of [call]s; a Python exception ends the
      pass with [Raise].
    - Widget values come from a session store keyed by the widget key.
    - The pandas, numpy and streamlit functions the script calls are
      embedded by what they compute for the arguments the script gives. *)

From Stdlib Require Import List String Ascii Bool Arith ZArith Lia.
From Stdlib Require Import PrimFloat Uint63 FloatOps SpecFloat.
From Stdlib Require Import Reals Lra OrdersEx DecimalString Sorted RelationClasses.
Import ListNotations.

Local Open Scope string_scope.
Local Open Scope list_scope.

(* ------------------------------------------------------------------ *)
(** ** Tables *)

(** Column dtypes.  The script tests for the first four by name; the others
    stand for what [pd.read_csv] or a caller may also produce. *)
Inductive dtype : Set :=
| float64 | int64 | object | category
| bool_ | datetime64 | float32 | int32.

Definition dtype_eqb (a b : dtype) : bool :=
  match a, b with
  | float64, float64 | int64, int64 | object, object | category, category
  | bool_, bool_ | datetime64, datetime64 | float32, float32 | int32, int32 => true
  | _, _ => false
  end.

(** A cell.  [NA] is the missing marker of object and datetime columns
    ([None], [NaT]); a missing float is the float [nan]. *)
Inductive cell : Set :=
| NA
| Int (z : Z)
| Float (f : float)
| Str (s : string)
| Bool (b : bool).

(** [Series]: a named, typed column. *)
Record Series : Set := mkSeries {
  name : string;
  dt : dtype;
  values : list cell
}.

(** [DataFrame]: the columns in order, under a [RangeIndex] of [index_len]
    labels.  [len(df)] is the length of the index. *)
Record DataFrame : Set := mkDataFrame {
  index_len : nat;
  columns : list Series
}.

Definition len (df : DataFrame) : nat := index_len df.

(** The data model's invariant: every column is as long as the index and
    column names are unique. *)
Definition well_formed (df : DataFrame) : Prop :=
  Forall (fun c => List.length (values c) = index_len df) (columns df)
  /\ NoDup (map name (columns df)).

(* ------------------------------------------------------------------ *)
(** ** float64 helpers *)

Definition is_nan (f : float) : bool := negb (PrimFloat.eqb f f).

(** int64 to float64, exact below 2^53. *)
Definition float_of_Z (z : Z) : float :=
  if (z <? 0)%Z then PrimFloat.opp (PrimFloat.of_uint63 (Uint63.of_Z (- z)))
  else PrimFloat.of_uint63 (Uint63.of_Z z).

Definition float_of_nat (n : nat) : float := float_of_Z (Z.of_nat n).

(** [np.rint]: the nearest integer, ties to even.  For [|x| < 2^52] adding
    and subtracting 2^52 rounds in the default rounding mode; larger
    values, infinities and [nan] are already integral or unchanged. *)
Definition two52 : float := 4503599627370496%float.

Definition rint (x : float) : float :=
  if PrimFloat.ltb (PrimFloat.abs x) two52 then
    let r := PrimFloat.sub (PrimFloat.add (PrimFloat.abs x) two52) two52 in
    if PrimFloat.ltb x 0%float then PrimFloat.opp r else r
  else x.

(** [ndarray.round(2)] on float64: scale by 10^2, [rint], scale back. *)
Definition np_round2 (x : float) : float :=
  PrimFloat.div (rint (PrimFloat.mul x 100%float)) 100%float.

(* ------------------------------------------------------------------ *)
(** ** Summary Reporter: the missing-value table (lines 60-67) *)

(** [pd.isnull] on one cell. *)
Definition isnull (v : cell) : bool :=
  match v with
  | NA => true
  | Float f => is_nan f
  | _ => false
  end.

(** [df.isnull().sum().values]: per column, the sum of the boolean mask. *)
Definition isnull_sum (df : DataFrame) : list Z :=
  map (fun c => fold_left (fun acc v => (acc + (if isnull v then 1 else 0))%Z)
                          (values c) 0%Z)
      (columns df).

(** One row of the missing-value table. *)
Record MissingRow : Set := mkMissingRow {
  Column : string;
  Missing_Values : Z;
  Percentage : float
}.

(** [pd.DataFrame({...})] from three arrays: a [ValueError] ([None]) when
    their lengths differ, else one row per position. *)
Fixpoint pd_DataFrame3 (a : list string) (b : list Z) (c : list float)
  : option (list MissingRow) :=
  match a, b, c with
  | [], [], [] => Some []
  | x :: a', y :: b', z :: c' =>
      match pd_DataFrame3 a' b' c' with
      | Some rows => Some (mkMissingRow x y z :: rows)
      | None => None
      end
  | _, _, _ => None
  end.

(** [(df.isnull().sum().values / len(df) * 100).round(2)] *)
Definition percentage_array (df : DataFrame) : list float :=
  map (fun m => np_round2
                  (PrimFloat.mul (PrimFloat.div (float_of_Z m) (float_of_nat (len df)))
                                 100%float))
      (isnull_sum df).

Definition missing_data (df : DataFrame) : option (list MissingRow) :=
  pd_DataFrame3 (map name (columns df)) (isnull_sum df) (percentage_array df).

(** The specification's reading of the same table: the number of null cells of a
    column, counted. *)
Definition missing_count (c : Series) : nat :=
  List.length (filter isnull (values c)).

(* ------------------------------------------------------------------ *)
(** ** Visualization Selector: column classification (lines 73-74) *)

(** [df.select_dtypes(include=...)]: the columns whose dtype is listed. *)
Definition select_dtypes (include : list dtype) (df : DataFrame) : list Series :=
  filter (fun c => existsb (dtype_eqb (dt c)) include) (columns df).

Definition numeric_columns (df : DataFrame) : list string :=
  map name (select_dtypes [float64; int64] df).

Definition categorical_columns (df : DataFrame) : list string :=
  map name (select_dtypes [object; category] df).

(** [df[key]]: the column called [key]; Python raises [KeyError] when there
    is none. *)
Definition getitem (df : DataFrame) (key : string) : option Series :=
  find (fun c => String.eqb (name c) key) (columns df).

(* ------------------------------------------------------------------ *)
(** ** Bar chart aggregation: [df.groupby(x_col)[y_col].mean().reset_index()] *)

(** The group label of a key cell.  Object and category columns of a loaded
    table hold strings or missing values; [groupby] drops missing keys. *)
Definition label_of (v : cell) : option string :=
  match v with
  | Str s => Some s
  | _ => None
  end.

(** The float64 view of a numeric cell ([int64] is cast before the mean). *)
Definition to_float (v : cell) : float :=
  match v with
  | Int z => float_of_Z z
  | Float f => f
  | _ => nan
  end.

(** Sorted, duplicate-free insertion: the uniques of [factorize(sort=True)]. *)
Fixpoint insert_label (s : string) (l : list string) : list string :=
  match l with
  | [] => [s]
  | x :: l' =>
      match String_as_OT.compare s x with
      | Lt => s :: l
      | Eq => l
      | Gt => x :: insert_label s l'
      end
  end.

Definition uniques (keys : list cell) : list string :=
  fold_left (fun acc v => match label_of v with
                          | Some s => insert_label s acc
                          | None => acc
                          end) keys [].

Fixpoint index_of (s : string) (l : list string) : option nat :=
  match l with
  | [] => None
  | x :: l' => if String.eqb x s then Some 0
               else option_map S (index_of s l')
  end.

(** The group code of every row; [None] is pandas' code [-1]. *)
Definition codes (keys : list cell) : list (option nat) :=
  map (fun v => match label_of v with
                | Some s => index_of s (uniques keys)
                | None => None
                end) keys.

(** One accumulator of [group_mean]: observation count, running sum and the
    Kahan compensation term. *)
Record acc : Set := mkAcc {
  nobs : nat;
  sumx : float;
  compensation : float
}.

Definition acc0 : acc := mkAcc 0 0%float 0%float.

Definition kahan_add (a : acc) (val : float) : acc :=
  let y := PrimFloat.sub val (compensation a) in
  let t := PrimFloat.add (sumx a) y in
  let c := PrimFloat.sub (PrimFloat.sub t (sumx a)) y in
  mkAcc (S (nobs a)) t (if is_nan c then 0%float else c).

Fixpoint update {A : Type} (i : nat) (x : A) (l : list A) : list A :=
  match l, i with
  | [], _ => []
  | _ :: l', O => x :: l'
  | y :: l', S i' => y :: update i' x l'
  end.

(** The loop body of [group_mean] for one row. *)
Definition group_step (accs : list acc) (row : option nat * float) : list acc :=
  match fst row with
  | None => accs
  | Some lab =>
      if is_nan (snd row) then accs
      else update lab (kahan_add (nth lab accs acc0) (snd row)) accs
  end.

Definition finish (a : acc) : float :=
  if Nat.eqb (nobs a) 0 then nan
  else PrimFloat.div (sumx a) (float_of_nat (nobs a)).

Definition group_mean (ngroups : nat) (labels : list (option nat)) (vals : list float)
  : list float :=
  map finish (fold_left group_step (combine labels vals) (repeat acc0 ngroups)).

(** [agg_data]: one row per group, label then mean, in label order. *)
Definition groupby_mean (x y : Series) : list (string * float) :=
  let keys := values x in
  combine (uniques keys)
          (group_mean (List.length (uniques keys)) (codes keys) (map to_float (values y))).




(* ------------------------------------------------------------------ *)
(** ** Correlation: [df[numeric_columns].corr()]

    pandas computes Pearson correlation in [nancorr], one pass per column
    pair by Welford's method.  The loop is written once over an arithmetic
    interface and read twice: over binary64, as the program runs it, and
    over the reals, where rounding is absent. *)

Class Arith (F : Type) : Type := {
  fzero : F;
  fone : F;
  fadd : F -> F -> F;
  fsub : F -> F -> F;
  fmul : F -> F -> F;
  fdiv : F -> F -> F;
  fopp : F -> F;
  fsqrt : F -> F;
  fof_nat : nat -> F;
  fltb : F -> F -> bool;
  feqb : F -> F -> bool
}.

Section Nancorr.
Context {F : Type} `{Arith F}.

Record welford : Type := mkWelford {
  w_nobs : nat;
  meanx : F;
  meany : F;
  ssqdm_x : F;
  ssqdm_y : F;
  covxy : F
}.

Definition welford0 : welford := mkWelford 0 fzero fzero fzero fzero fzero.

(** The body of the row loop for a row present in both columns. *)
Definition welford_step (w : welford) (vx vy : F) : welford :=
  let n := S (w_nobs w) in
  let dx := fsub vx (meanx w) in
  let dy := fsub vy (meany w) in
  let mx := fadd (meanx w) (fmul (fdiv fone (fof_nat n)) dx) in
  let my := fadd (meany w) (fmul (fdiv fone (fof_nat n)) dy) in
  mkWelford n mx my
            (fadd (ssqdm_x w) (fmul (fsub vx mx) dx))
            (fadd (ssqdm_y w) (fmul (fsub vy my) dy))
            (fadd (covxy w) (fmul (fsub vx mx) dy)).

(** Rows masked out in either column ([None]: not finite) are skipped. *)
Definition welford_row (w : welford) (row : option F * option F) : welford :=
  match row with
  | (Some vx, Some vy) => welford_step w vx vy
  | _ => w
  end.

Definition clip (val : F) : F :=
  if fltb fone val then fone
  else if fltb val (fopp fone) then fopp fone
  else val.

(** One entry of the result; [None] is the [NaN] the loop stores when
    there are fewer than [min_periods = 1] rows or the divisor is zero. *)
Definition corr_pair (colx coly : list (option F)) : option F :=
  let w := fold_left welford_row (combine colx coly) welford0 in
  if Nat.ltb (w_nobs w) 1 then None
  else
    let divisor := fsqrt (fmul (ssqdm_x w) (ssqdm_y w)) in
    if negb (feqb divisor fzero) then Some (clip (fdiv (covxy w) divisor))
    else None.

(** [for xi in range(K): for yi in range(xi + 1):] the pair is computed
    once, with the later column as [x], and stored at both positions. *)
Definition nancorr_entry (mat : list (list (option F))) (i j : nat) : option F :=
  corr_pair (nth (Nat.max i j) mat []) (nth (Nat.min i j) mat []).

Definition nancorr (mat : list (list (option F))) : list (list (option F)) :=
  let K := List.length mat in
  map (fun i => map (fun j => nancorr_entry mat i j) (seq 0 K)) (seq 0 K).
End Nancorr.

#[export] Instance float_arith : Arith float := {|
  fzero := 0%float;
  fone := 1%float;
  fadd := PrimFloat.add;
  fsub := PrimFloat.sub;
  fmul := PrimFloat.mul;
  fdiv := PrimFloat.div;
  fopp := PrimFloat.opp;
  fsqrt := PrimFloat.sqrt;
  fof_nat := float_of_nat;
  fltb := PrimFloat.ltb;
  feqb := PrimFloat.eqb
|}.

#[export] Instance real_arith : Arith R := {|
  fzero := 0%R;
  fone := 1%R;
  fadd := Rplus;
  fsub := Rminus;
  fmul := Rmult;
  fdiv := Rdiv;
  fopp := Ropp;
  fsqrt := sqrt;
  fof_nat := INR;
  fltb := fun a b => if Rlt_dec a b then true else false;
  feqb := fun a b => if Req_dec_T a b then true else false
|}.

(** [mask = np.isfinite(mat)]: a cell takes part when it is a finite float. *)
Definition isfinite (f : float) : bool :=
  PrimFloat.ltb (PrimFloat.abs f) infinity.

Definition finite_float (v : cell) : option float :=
  let f := to_float v in
  if isfinite f then Some f else None.




Definition unmask (v : option float) : float :=
  match v with
  | Some f => f
  | None => nan
  end.

(** [cols.corr()] on a frame of numeric columns: the values go to a
    float64 matrix, [nancorr] runs on it, [NaN] fills the empty entries. *)
Definition corr (cols : list Series) : list (list float) :=
  map (map unmask) (nancorr (map (fun c => map finite_float (values c)) cols)).



(** The row loop of a column against itself. *)
Definition welford_self (xs : list R) (w : welford) : welford :=
  fold_left (fun w x => welford_step w x x) xs w.


(** Entry [(i, j)] of a matrix. *)
Definition entry {A : Type} (d : A) (m : list (list A)) (i j : nat) : A :=
  nth j (nth i m []) d.

(* ------------------------------------------------------------------ *)
(** ** The render pass: library calls, exceptions, widgets *)

Inductive exn : Set :=
| KeyError (key : string)
| IndexError
| ValueError
| StreamlitAPIException.

(** The statistics the Distribution tab prints. *)
Inductive stat : Set := Mean | Median | Std.

(** The pieces of an f-string: literal text, or a statistic of a column
    under the format spec [:.2f]. *)
Inductive piece : Set :=
| Lit (s : string)
| Fixed2 (f : stat) (data : Series).

(** The calls the three tabs make, with the arguments the script passes. *)
Inductive call : Set :=
| St_subheader (body : string)
| St_selectbox (label : string) (options : list string) (index : nat) (key : string)
| St_multiselect (label : string) (options default : list string) (key : string)
| St_write (body : list piece)
| St_pyplot
| Plt_subplots (width height : nat)
| Plt_title (label : string)
| Plt_xlabel (label : string)
| Plt_ylabel (label : string)
| Plt_legend
| Plt_xticks (rotation : nat)
| Sns_histplot (data : Series) (kde : bool)
| Sns_heatmap (labels : list string) (data : list (list float)) (annot : bool)
              (cmap fmt : string)
| Sns_scatterplot (x y : option Series)
| Sns_lineplot (y : option Series) (label : string)
| Sns_barplot (data : list (string * float)) (x y : string)
| Sns_barplot_index (y : option Series)
| Sns_boxplot (data : list (string * cell)) (x y : string).

Inductive outcome (A : Type) : Type :=
| Return (a : A)
| Raise (e : exn).
Arguments Return {A} a.
Arguments Raise {A} e.

(** A computation: the calls made so far and how it ended. *)
Definition M (A : Type) : Type := (list call * outcome A)%type.

Definition ret {A : Type} (a : A) : M A := ([], Return a).
Definition raise {A : Type} (e : exn) : M A := ([], Raise e).
Definition emit (c : call) : M unit := ([c], Return tt).

Definition bind {A B : Type} (m : M A) (k : A -> M B) : M B :=
  match m with
  | (t, Return a) => let (t', r) := k a in (t ++ t', r)
  | (t, Raise e) => (t, Raise e)
  end.

Notation "x <- m ;; k" := (bind m (fun x => k))
  (at level 61, m at next level, right associativity).
Notation "m ;; k" := (bind m (fun _ => k))
  (at level 61, right associativity).

Definition trace {A : Type} (m : M A) : list call := fst m.
Definition result {A : Type} (m : M A) : outcome A := snd m.

(** [for x in l: body] *)
Fixpoint for_each {A : Type} (l : list A) (body : A -> M unit) : M unit :=
  match l with
  | [] => ret tt
  | x :: l' => body x ;; for_each l' body
  end.

(** Truthiness of a Python list. *)
Definition truthy {A : Type} (l : list A) : bool :=
  match l with
  | [] => false
  | _ :: _ => true
  end.

Definition mem (s : string) (l : list string) : bool := existsb (String.eqb s) l.

(** What the user has set, by widget key. *)
Inductive widget_value : Set :=
| Choice (s : string)
| Choices (l : list string).

Definition session_state : Set := string -> option widget_value.

(** The value of a single-choice widget: the user's choice when it is one
    of the options, else the default [d]. *)
Definition chosen (ss : session_state) (options : list string) (d key : string)
  : string :=
  match ss key with
  | Some (Choice v) => if mem v options then v else d
  | _ => d
  end.

(** The value of a multiple-choice widget: the user's choices when all of
    them are options, else the default. *)
Definition chosen_many (ss : session_state) (options default : list string)
  (key : string) : list string :=
  match ss key with
  | Some (Choices l) => if forallb (fun v => mem v options) l then l else default
  | _ => default
  end.

(** [st.selectbox]: [None] when there are no options; the default is the
    option at [index], which must exist. *)
Definition st_selectbox (ss : session_state) (label : string) (options : list string)
  (index : nat) (key : string) : M (option string) :=
  emit (St_selectbox label options index key) ;;
  match options with
  | [] => ret None
  | _ :: _ =>
      match nth_error options index with
      | None => raise StreamlitAPIException
      | Some d => ret (Some (chosen ss options d key))
      end
  end.

(** [st.multiselect]: a default outside the options is an error. *)
Definition st_multiselect (ss : session_state) (label : string) (options default : list string)
  (key : string) : M (list string) :=
  emit (St_multiselect label options default key) ;;
  if forallb (fun d => mem d options) default then
    ret (chosen_many ss options default key)
  else raise StreamlitAPIException.

(** Python's [str] of a selection. *)
Definition py_str (o : option string) : string :=
  match o with
  | Some s => s
  | None => "None"
  end.

Definition py_eq (o : option string) (s : string) : bool :=
  match o with
  | Some v => String.eqb v s
  | None => false
  end.

(** [df[key]] inside the pass. *)
Definition df_getitem (df : DataFrame) (key : option string) : M Series :=
  match key with
  | Some k =>
      match getitem df k with
      | Some c => ret c
      | None => raise (KeyError k)
      end
  | None => raise (KeyError "None")
  end.

(** [df[keys]] for a list of names. *)
Fixpoint df_getitems (df : DataFrame) (keys : list string) : M (list Series) :=
  match keys with
  | [] => ret []
  | k :: keys' =>
      c <- df_getitem df (Some k) ;;
      cs <- df_getitems df keys' ;;
      ret (c :: cs)
  end.

(** A seaborn variable named in [data=df]: no variable for [None], and a
    [ValueError] for a name that is not a column. *)
Definition sns_var (df : DataFrame) (key : option string) : M (option Series) :=
  match key with
  | Some k =>
      match getitem df k with
      | Some c => ret (Some c)
      | None => raise ValueError
      end
  | None => ret None
  end.

(** [l[0]] *)
Definition first {A : Type} (l : list A) : M A :=
  match l with
  | x :: _ => ret x
  | [] => raise IndexError
  end.

(** [pd.melt]: one [(variable, value)] row per cell, column after column. *)
Definition pd_melt (cols : list Series) : list (string * cell) :=
  flat_map (fun c => map (fun v => (name c, v)) (values c)) cols.

(* ------------------------------------------------------------------ *)
(** ** The tabs (lines 79-165) *)

Definition tab1 (df : DataFrame) (ss : session_state) : M unit :=
  emit (St_subheader "Distribution Analysis") ;;
  if truthy (numeric_columns df) then
    selected_column <- st_selectbox ss "Select column for histogram"
                                    (numeric_columns df) 0 "hist_col" ;;
    emit (Plt_subplots 10 6) ;;
    data <- df_getitem df selected_column ;;
    emit (Sns_histplot data true) ;;
    emit (Plt_title ("Distribution of " ++ py_str selected_column)) ;;
    emit (Plt_xlabel (py_str selected_column)) ;;
    emit (Plt_ylabel "Frequency") ;;
    emit St_pyplot ;;
    data <- df_getitem df selected_column ;;
    emit (St_write [Lit "Mean: "; Fixed2 Mean data]) ;;
    data <- df_getitem df selected_column ;;
    emit (St_write [Lit "Median: "; Fixed2 Median data]) ;;
    data <- df_getitem df selected_column ;;
    emit (St_write [Lit "Std Dev: "; Fixed2 Std data])
  else ret tt.

Definition tab2 (df : DataFrame) (ss : session_state) : M unit :=
  emit (St_subheader "Correlation Analysis") ;;
  if Nat.ltb 1 (List.length (numeric_columns df)) then
    emit (Plt_subplots 10 8) ;;
    cols <- df_getitems df (numeric_columns df) ;;
    let correlation_matrix := corr cols in
    emit (Sns_heatmap (map name cols) correlation_matrix true "coolwarm" ".2f") ;;
    emit (Plt_title "Correlation Matrix") ;;
    emit St_pyplot
  else
    emit (St_write [Lit "Need at least two numeric columns for correlation analysis."]).

Definition scatter (df : DataFrame) (ss : session_state) : M unit :=
  let numeric_columns := numeric_columns df in
  x_col <- st_selectbox ss "Select X axis" numeric_columns 0 "x_col" ;;
  y_col <- st_selectbox ss "Select Y axis" numeric_columns
                        (if Nat.ltb 1 (List.length numeric_columns) then 1 else 0) "y_col" ;;
  emit (Plt_subplots 10 6) ;;
  x <- sns_var df x_col ;;
  y <- sns_var df y_col ;;
  emit (Sns_scatterplot x y) ;;
  emit (Plt_title (py_str y_col ++ " vs " ++ py_str x_col)) ;;
  emit St_pyplot.

Definition line (df : DataFrame) (ss : session_state) : M unit :=
  let numeric_columns := numeric_columns df in
  default <- first numeric_columns ;;
  selected_cols <- st_multiselect ss "Select columns" numeric_columns [default] "line_cols" ;;
  if truthy selected_cols then
    emit (Plt_subplots 10 6) ;;
    for_each selected_cols (fun col =>
      y <- sns_var df (Some col) ;;
      emit (Sns_lineplot y col)) ;;
    emit (Plt_title "Line Plot") ;;
    emit Plt_legend ;;
    emit St_pyplot
  else ret tt.

Definition bar (df : DataFrame) (ss : session_state) : M unit :=
  let numeric_columns := numeric_columns df in
  let categorical_columns := categorical_columns df in
  if truthy categorical_columns then
    x_col <- st_selectbox ss "Select category (X axis)" categorical_columns 0 "bar_x" ;;
    y_col <- st_selectbox ss "Select value (Y axis)" numeric_columns 0 "bar_y" ;;
    keys <- df_getitem df x_col ;;
    vals <- df_getitem df y_col ;;
    let agg_data := groupby_mean keys vals in
    emit (Plt_subplots 10 6) ;;
    emit (Sns_barplot agg_data (py_str x_col) (py_str y_col)) ;;
    emit (Plt_title ("Average " ++ py_str y_col ++ " by " ++ py_str x_col)) ;;
    emit (Plt_xticks 45) ;;
    emit St_pyplot
  else
    y_col <- st_selectbox ss "Select column for bar chart" numeric_columns 0 "bar_y_only" ;;
    emit (Plt_subplots 10 6) ;;
    y <- sns_var df y_col ;;
    emit (Sns_barplot_index y) ;;
    emit (Plt_title ("Bar Plot of " ++ py_str y_col)) ;;
    emit St_pyplot.

Definition box (df : DataFrame) (ss : session_state) : M unit :=
  let numeric_columns := numeric_columns df in
  default <- first numeric_columns ;;
  selected_cols <- st_multiselect ss "Select columns" numeric_columns [default] "box_cols" ;;
  if truthy selected_cols then
    emit (Plt_subplots 10 6) ;;
    cols <- df_getitems df selected_cols ;;
    let melted_df := pd_melt cols in
    emit (Sns_boxplot melted_df "variable" "value") ;;
    emit (Plt_title "Box Plot") ;;
    emit (Plt_xticks 45) ;;
    emit St_pyplot
  else ret tt.

Definition tab3 (df : DataFrame) (ss : session_state) : M unit :=
  emit (St_subheader "Custom Plot") ;;
  if truthy (numeric_columns df) then
    plot_type <- st_selectbox ss "Select plot type" ["Scatter"; "Line"; "Bar"; "Box"]
                              0 "plot_type" ;;
    if py_eq plot_type "Scatter" && Nat.leb 2 (List.length (numeric_columns df)) then
      scatter df ss
    else if py_eq plot_type "Line" && truthy (numeric_columns df) then
      line df ss
    else if py_eq plot_type "Bar" && truthy (numeric_columns df) then
      bar df ss
    else if py_eq plot_type "Box" && truthy (numeric_columns df) then
      box df ss
    else ret tt
  else ret tt.

(** The three tabs of one render pass, in program order. *)
Definition visualizations (df : DataFrame) (ss : session_state) : M unit :=
  tab1 df ss ;; tab2 df ss ;; tab3 df ss.

(** A chart was shown. *)
Definition shows_chart (t : list call) : Prop := In St_pyplot t.





(** A computation that returns normally and shows no chart. *)
Definition quiet (m : M unit) : Prop :=
  result m = Return tt /\ ~ shows_chart (trace m).

(** The option of the plot-type selector in force. *)
Definition plot_type_of (ss : session_state) : string :=
  chosen ss ["Scatter"; "Line"; "Bar"; "Box"] "Scatter" "plot_type".


(** A statement about a computation: every call it makes satisfies [P]
    and, when it returns, the value satisfies [Q]. *)
Definition triple {A : Type} (m : M A) (P : call -> Prop) (Q : A -> Prop) : Prop :=
  Forall P (trace m) /\ forall a, result m = Return a -> Q a.

(* ------------------------------------------------------------------ *)
(** ** Data Loader (lines 22-38) *)

(** What [st.sidebar.file_uploader] hands over: an uploaded file with the
    identity streamlit gives it. *)
Record UploadedFile : Set := mkUploadedFile {
  file_id : nat;
  file_name : string;
  content : string
}.

Section Loader.
(** The state of numpy's global generator, the standard normal sample it
    yields for a position of the array being filled, and pandas' reader. *)
Variable rng : Type.
Variable randn : rng -> (nat -> nat -> float) * rng.
Variable read_csv : UploadedFile -> outcome DataFrame.

(** [pd.DataFrame(np.random.randn(100, 5), columns=['A','B','C','D','E'])] *)
Definition placeholder (sample : nat -> nat -> float) : DataFrame :=
  mkDataFrame 100
    (map (fun jn => mkSeries (snd jn) float64
                      (map (fun i => Float (sample i (fst jn))) (seq 0 100)))
         (combine (seq 0 5) ["A"; "B"; "C"; "D"; "E"])).

(** The body of [load_data]; it reads the module-level [uploaded_file]. *)
Definition load_data_body (uploaded_file : option UploadedFile) (g : rng)
  : outcome DataFrame * rng :=
  match uploaded_file with
  | Some f => (read_csv f, g)
  | None => let (sample, g') := randn g in (Return (placeholder sample), g')
  end.

(** What persists between render passes: the entry [st.cache_data] keeps
    for [load_data] and the generator state.  The cache key is made of
    the function and its arguments; [load_data] takes none, so there is
    one entry. *)
Record world : Type := mkWorld {
  cached : option DataFrame;
  gen : rng
}.

(** [load_data()] under [@st.cache_data]: a hit returns the stored value
    and does not run the body; a miss runs it and stores what it returns
    (nothing when it raises). *)
Definition load_data (uploaded_file : option UploadedFile) (w : world)
  : outcome DataFrame * world :=
  match cached w with
  | Some data => (Return data, w)
  | None =>
      match load_data_body uploaded_file (gen w) with
      | (Return data, g') => (Return data, mkWorld (Some data) g')
      | (Raise e, g') => (Raise e, mkWorld None g')
      end
  end.

(** The memoization the specification describes: one entry per upload
    identity ([None] for no upload). *)
Definition upload_key (uploaded_file : option UploadedFile) : option nat :=
  option_map file_id uploaded_file.

Record keyed_world : Type := mkKeyedWorld {
  entries : list (option nat * DataFrame);
  kgen : rng
}.

Definition key_eqb (a b : option nat) : bool :=
  match a, b with
  | Some x, Some y => Nat.eqb x y
  | None, None => true
  | _, _ => false
  end.

Definition lookup_entry (k : option nat) (l : list (option nat * DataFrame))
  : option DataFrame :=
  option_map snd (find (fun e => key_eqb (fst e) k) l).

Definition load_data_keyed (uploaded_file : option UploadedFile) (w : keyed_world)
  : outcome DataFrame * keyed_world :=
  match lookup_entry (upload_key uploaded_file) (entries w) with
  | Some data => (Return data, w)
  | None =>
      match load_data_body uploaded_file (kgen w) with
      | (Return data, g') =>
          (Return data, mkKeyedWorld ((upload_key uploaded_file, data) :: entries w) g')
      | (Raise e, g') => (Raise e, mkKeyedWorld (entries w) g')
      end
  end.
End Loader.

(* ------------------------------------------------------------------ *)
(** ** CSV download (lines 44-50) and its reading back

    [df.to_csv()] formats every cell to text and hands the rows to Python's
    [csv.writer]; [pd.read_csv] tokenizes text into rows of fields and takes
    the first row as the header.  Both are embedded on tables of text: a
    cell is the text pandas writes for it, the empty text for a missing
    value.  Strings are byte strings, so [.encode('utf-8')] changes
    nothing here. *)
Module Csv.

Record Table : Set := mkTable {
  names : list string;
  rows : list (list string)
}.


Definition comma : ascii := ","%char.
Definition dquote : ascii := ascii_of_nat 34.
Definition LF : ascii := ascii_of_nat 10.
Definition CR : ascii := ascii_of_nat 13.
Definition space : ascii := " "%char.
Definition tab : ascii := ascii_of_nat 9.



(** Decimal text of a row label or a column position. *)
Definition str_nat (n : nat) : string :=
  DecimalString.NilEmpty.string_of_uint (Nat.to_uint n).

(** *** Writer: [csv.writer] with [QUOTE_MINIMAL], delimiter [,],
    the double quote as quote character, doubled inside fields, line
    terminator [\n] *)












(** *** Reader: the tokenizer of [pd.read_csv] with its defaults *)

Inductive mode : Set :=
| START_RECORD | START_FIELD | IN_FIELD | WHITESPACE_LINE
| IN_QUOTED_FIELD | QUOTE_IN_QUOTED_FIELD | EAT_CRNL | EAT_CRNL_NOP.

Record parser : Set := mkParser {
  state : mode;
  field : string;              (* the field being read *)
  fields : list string;        (* the fields of the line being read *)
  lines : list (list string)   (* the lines read *)
}.

Definition parser0 : parser := mkParser START_RECORD EmptyString [] [].

Definition PUSH_CHAR (c : ascii) (p : parser) : parser :=
  mkParser (state p) (field p ++ String c EmptyString) (fields p) (lines p).

Definition END_FIELD (p : parser) : parser :=
  mkParser (state p) EmptyString (fields p ++ [field p]) (lines p).

Definition END_LINE (p : parser) : parser :=
  mkParser START_RECORD EmptyString [] (lines p ++ [fields p]).

Definition set_state (m : mode) (p : parser) : parser :=
  mkParser m (field p) (fields p) (lines p).

Definition drop_field (p : parser) : parser :=
  mkParser (state p) EmptyString (fields p) (lines p).

Definition is_whitespace (c : ascii) : bool :=
  Ascii.eqb c space || Ascii.eqb c tab.

Definition in_field (p : parser) (c : ascii) : parser :=
  if Ascii.eqb c LF then END_LINE (END_FIELD p)
  else if Ascii.eqb c CR then set_state EAT_CRNL (END_FIELD p)
  else if Ascii.eqb c comma then set_state START_FIELD (END_FIELD p)
  else PUSH_CHAR c p.

Definition start_field (p : parser) (c : ascii) : parser :=
  if Ascii.eqb c LF then END_LINE (END_FIELD p)
  else if Ascii.eqb c CR then set_state EAT_CRNL (END_FIELD p)
  else if Ascii.eqb c dquote then set_state IN_QUOTED_FIELD p
  else if Ascii.eqb c comma then END_FIELD p
  else set_state IN_FIELD (PUSH_CHAR c p).

(** Blank lines are skipped ([skip_blank_lines=True]); a line that starts
    with white space is held back until it shows another character. *)
Definition start_record (p : parser) (c : ascii) : parser :=
  if Ascii.eqb c LF then p
  else if Ascii.eqb c CR then set_state EAT_CRNL_NOP p
  else if is_whitespace c then set_state WHITESPACE_LINE (PUSH_CHAR c p)
  else start_field (set_state START_FIELD p) c.

Definition step (p : parser) (c : ascii) : parser :=
  match state p with
  | START_RECORD => start_record p c
  | START_FIELD => start_field p c
  | IN_FIELD => in_field p c
  | WHITESPACE_LINE =>
      if Ascii.eqb c LF then set_state START_RECORD (drop_field p)
      else if Ascii.eqb c CR then set_state EAT_CRNL_NOP (drop_field p)
      else if is_whitespace c then PUSH_CHAR c p
      else in_field (set_state IN_FIELD p) c
  | IN_QUOTED_FIELD =>
      if Ascii.eqb c dquote then set_state QUOTE_IN_QUOTED_FIELD p
      else PUSH_CHAR c p
  | QUOTE_IN_QUOTED_FIELD =>
      if Ascii.eqb c dquote then set_state IN_QUOTED_FIELD (PUSH_CHAR c p)
      else if Ascii.eqb c comma then set_state START_FIELD (END_FIELD p)
      else if Ascii.eqb c LF then END_LINE (END_FIELD p)
      else if Ascii.eqb c CR then set_state EAT_CRNL (END_FIELD p)
      else set_state IN_FIELD (PUSH_CHAR c p)
  | EAT_CRNL =>
      if Ascii.eqb c LF then END_LINE p
      else start_record (END_LINE p) c
  | EAT_CRNL_NOP =>
      if Ascii.eqb c LF || Ascii.eqb c comma then set_state START_RECORD p
      else start_record (set_state START_RECORD p) c
  end.

Fixpoint tokenize_bytes (p : parser) (s : string) : parser :=
  match s with
  | EmptyString => p
  | String c s' => tokenize_bytes (step p c) s'
  end.

(** End of input: an open quoted field is an error, an open field or
    line is closed. *)
Definition handle_eof (p : parser) : option (list (list string)) :=
  match state p with
  | START_RECORD | WHITESPACE_LINE | EAT_CRNL_NOP => Some (lines p)
  | IN_QUOTED_FIELD => None
  | IN_FIELD | START_FIELD | QUOTE_IN_QUOTED_FIELD =>
      Some (lines (END_LINE (END_FIELD p)))
  | EAT_CRNL => Some (lines (END_LINE p))
  end.

Definition tokenize (s : string) : option (list (list string)) :=
  handle_eof (tokenize_bytes parser0 s).

(** The header: a column without a name is called [Unnamed: i]. *)
Fixpoint fill_unnamed (i : nat) (header : list string) : list string :=
  match header with
  | [] => []
  | h :: header' =>
      (if String.eqb h EmptyString then ("Unnamed: " ++ str_nat i)%string else h)
      :: fill_unnamed (S i) header'
  end.

Fixpoint nodupb (l : list string) : bool :=
  match l with
  | [] => true
  | x :: l' => negb (existsb (String.eqb x) l') && nodupb l'
  end.

(** Lines with fewer fields than the header are padded with empty
    fields. *)
Definition pad (n : nat) (r : list string) : list string :=
  r ++ repeat EmptyString (n - List.length r).

Inductive read_result : Set :=
| Parsed (t : Table)
| EmptyDataError
| ParserError
| NotModelled.

(** [pd.read_csv] as far as modelled here.  pandas renames repeated
    column names, and reads a first line longer than the header as
    carrying row labels (and rejects a later one); these inputs are
    [NotModelled]. *)
Definition read_csv (s : string) : read_result :=
  match tokenize s with
  | None => ParserError
  | Some [] => EmptyDataError
  | Some (header :: body) =>
      let columns := fill_unnamed 0 header in
      if negb (nodupb columns) then NotModelled
      else if existsb (fun r => Nat.ltb (List.length header) (List.length r)) body
      then NotModelled
      else Parsed (mkTable columns (map (pad (List.length header)) body))
  end.


End Csv.

(* ------------------------------------------------------------------ *)
(** ** The whole script (lines 7-173)

    Around the tabs the script configures the page, takes the upload,
    loads the table, shows it with its download button and its summary,
    and ends with a footer.  Its calls are recorded like those of the
    tabs; the values it hands over uncomputed ([df.to_csv()] in the
    download button, [df.describe()]) are recorded by the table they are
    taken from. *)

Inductive page_call : Set :=
| St_set_page_config (page_title page_icon layout : string)
| St_title (body : string)
| St_markdown (body : string)
| St_sidebar_header (body : string)
| St_sidebar_file_uploader (label : string) (type : list string)
| St_expander (label : string)
| St_dataframe (data : DataFrame)
| St_download_button (label : string) (to_csv_of : DataFrame) (file_name mime : string)
| St_header (body : string)
| St_columns (spec : nat)
| St_write_describe (describe_of : DataFrame)
| St_write_table (data : list MissingRow)
| St_tabs (tabs : list string)
| Of_call (c : call).

Definition Page (A : Type) : Type := (list page_call * outcome A)%type.

Definition page_ret {A : Type} (a : A) : Page A := ([], Return a).
Definition page_raise {A : Type} (e : exn) : Page A := ([], Raise e).
Definition page_emit (c : page_call) : Page unit := ([c], Return tt).

Definition page_bind {A B : Type} (m : Page A) (k : A -> Page B) : Page B :=
  match m with
  | (t, Return a) => let (t', r) := k a in (t ++ t', r)
  | (t, Raise e) => (t, Raise e)
  end.

Notation "x <-- m ;;; k" := (page_bind m (fun x => k))
  (at level 61, m at next level, right associativity).
Notation "m ;;; k" := (page_bind m (fun _ => k))
  (at level 61, right associativity).

(** A computation of the tabs, inside the page. *)
Definition lift {A : Type} (m : M A) : Page A := (map Of_call (fst m), snd m).

(** [df.describe()]: pandas refuses a table without columns. *)
Definition describe (df : DataFrame) : Page DataFrame :=
  match columns df with
  | [] => page_raise ValueError
  | _ :: _ => page_ret df
  end.

(** The missing-value table inside the pass; a [ValueError] of
    [pd.DataFrame] would end it. *)
Definition missing_values (df : DataFrame) : Page (list MissingRow) :=
  match missing_data df with
  | Some table => page_ret table
  | None => page_raise ValueError
  end.

(** Lines 7-22: up to the file uploader. *)
Definition page_head : list page_call :=
  [St_set_page_config "Data Analysis Dashboard" "📊" "wide";
   St_title "Data Analysis Dashboard";
   St_markdown "This dashboard provides insights from your data analysis.";
   St_sidebar_header "Filters and Options";
   St_sidebar_file_uploader "Upload your CSV file" ["csv"]].

(** Lines 169-173. *)
Definition footer : list page_call :=
  [St_markdown "---";
   St_markdown "Dashboard created with Streamlit";
   St_markdown "For more information, contact [Your Name](mailto:your.email@example.com)";
   St_markdown "© 2023 Your Company"].

Fixpoint page_emit_all (l : list page_call) : Page unit :=
  match l with
  | [] => page_ret tt
  | c :: l' => page_emit c ;;; page_emit_all l'
  end.

(** The script from top to bottom, given what [load_data()] did. *)
Definition script (loaded : outcome DataFrame) (ss : session_state) : Page unit :=
  page_emit_all page_head ;;;
  df <-- (([], loaded) : Page DataFrame) ;;;
  page_emit (St_expander "Raw Data") ;;;
  page_emit (St_dataframe df) ;;;
  page_emit (St_download_button "Download data as CSV" df
                                "dashboard_data.csv" "text/csv") ;;;
  page_emit (St_header "Data Summary") ;;;
  page_emit (St_columns 2) ;;;
  page_emit (Of_call (St_subheader "Descriptive Statistics")) ;;;
  described <-- describe df ;;;
  page_emit (St_write_describe described) ;;;
  page_emit (Of_call (St_subheader "Missing Values")) ;;;
  missing_data <-- missing_values df ;;;
  page_emit (St_write_table missing_data) ;;;
  page_emit (St_header "Visualizations") ;;;
  page_emit (St_tabs ["Distribution"; "Correlation"; "Custom Plot"]) ;;;
  lift (visualizations df ss) ;;;
  page_emit_all footer.

Section Script.
Variable rng : Type.
Variable randn : rng -> (nat -> nat -> float) * rng.
Variable read_csv : UploadedFile -> outcome DataFrame.

(** One run of the script: the upload and the widget values come in, the
    cache and the generator state are carried over. *)
Definition main (uploaded_file : option UploadedFile) (ss : session_state)
  (w : world rng) : Page unit * world rng :=
  let (loaded, w') := load_data rng randn read_csv uploaded_file w in
  (script loaded ss, w').
End Script.

(** A computation that returns a value satisfying [Q]. *)
Definition returns {A : Type} (m : M A) (Q : A -> Prop) : Prop :=
  exists a, result m = Return a /\ Q a.

(** How often a call occurs in a trace. *)
Definition count (p : call -> bool) (t : list call) : nat :=
  List.length (filter p t).

Definition is_subplots (c : call) : bool :=
  match c with
  | Plt_subplots _ _ => true
  | _ => false
  end.

Definition is_pyplot (c : call) : bool :=
  match c with
  | St_pyplot => true
  | _ => false
  end.

(** What a tab leaves behind: a normal return and as many figures shown
    as created, at most one. *)
Definition tidy (m : M unit) : Prop :=
  result m = Return tt /\
  count is_subplots (trace m) = count is_pyplot (trace m) /\
  count is_pyplot (trace m) <= 1.


(** A text of [n] empty lines, and a text without a double quote. *)
Fixpoint blank_lines (n : nat) : string :=
  match n with
  | O => EmptyString
  | S n' => String Csv.LF (blank_lines n')
  end.

Fixpoint quote_free (f : string) : bool :=
  match f with
  | EmptyString => true
  | String c f' => negb (Ascii.eqb c Csv.dquote) && quote_free f'
  end.

(* ================================================================== *)
(** * Properties *)

(* ------------------------------------------------------------------ *)
(** ** Lists, lookups *)

Lemma dtype_eqb_eq (a b : dtype) : dtype_eqb a b = true <-> a = b.
Proof.
  split.
  - destruct a, b; simpl; intro E; try reflexivity; discriminate E.
  - intros ->. destruct b; reflexivity.
Qed.

Lemma in_select_dtypes (include : list dtype) (df : DataFrame) (c : Series) :
  In c (select_dtypes include df) <-> In c (columns df) /\ In (dt c) include.
Proof.
  unfold select_dtypes. rewrite filter_In, existsb_exists.
  split.
  - intros [Hc [d [Hd E]]]. apply dtype_eqb_eq in E. subst d. auto.
  - intros [Hc Hd]. split; [assumption|].
    exists (dt c). split; [assumption | now apply dtype_eqb_eq].
Qed.

Lemma mem_In (s : string) (l : list string) : mem s l = true <-> In s l.
Proof.
  unfold mem. rewrite existsb_exists. split.
  - intros [x [Hx E]]. apply String.eqb_eq in E. now subst.
  - intro Hs. exists s. split; [assumption | apply String.eqb_refl].
Qed.

(** A name in the table finds a column of that name. *)
Lemma getitem_some (df : DataFrame) (key : string) :
  In key (map name (columns df)) ->
  exists c, getitem df key = Some c /\ name c = key /\ In c (columns df).
Proof.
  unfold getitem. induction (columns df) as [|x l IH]; simpl; [tauto|].
  intros [E | Hin].
  - exists x. rewrite E, String.eqb_refl. auto.
  - destruct (String.eqb (name x) key) eqn:Ex.
    + exists x. apply String.eqb_eq in Ex. auto.
    + destruct (IH Hin) as [c [Hc [Hn Hl]]]. exists c. auto.
Qed.



Lemma numeric_columns_in (df : DataFrame) (s : string) :
  In s (numeric_columns df) -> In s (map name (columns df)).
Proof.
  unfold numeric_columns. rewrite !in_map_iff.
  intros [c [E Hc]]. apply in_select_dtypes in Hc. exists c. tauto.
Qed.

Lemma categorical_columns_in (df : DataFrame) (s : string) :
  In s (categorical_columns df) -> In s (map name (columns df)).
Proof.
  unfold categorical_columns. rewrite !in_map_iff.
  intros [c [E Hc]]. apply in_select_dtypes in Hc. exists c. tauto.
Qed.


(* ------------------------------------------------------------------ *)
(** ** Reasoning about computations *)

Section Triples.
Context {A B : Type}.




Lemma triple_weaken (m : M A) (P : call -> Prop) (Q Q' : A -> Prop) :
  triple m P Q -> (forall a, Q a -> Q' a) -> triple m P Q'.
Proof.
  intros [Ht Hr] HQ. split; [assumption|]. intros a E. auto.
Qed.
End Triples.



Lemma chosen_in ss options d key :
  In d options -> In (chosen ss options d key) options.
Proof.
  intro Hd. unfold chosen. destruct (ss key) as [[v|l]|]; try assumption.
  destruct (mem v options) eqn:E; [now apply mem_In | assumption].
Qed.

Lemma forallb_mem (l options : list string) :
  forallb (fun v => mem v options) l = true -> forall v, In v l -> In v options.
Proof.
  rewrite forallb_forall. intros Hl v Hv. apply mem_In. now apply Hl.
Qed.

Lemma chosen_many_in ss options default key :
  (forall v, In v default -> In v options) ->
  forall v, In v (chosen_many ss options default key) -> In v options.
Proof.
  intro Hd. unfold chosen_many. destruct (ss key) as [[v|l]|]; try assumption.
  destruct (forallb (fun v => mem v options) l) eqn:E;
    [now apply forallb_mem | assumption].
Qed.








(* ------------------------------------------------------------------ *)
(** ** Every widget and chart draws from the classified columns *)













(* ------------------------------------------------------------------ *)
(** ** C10: column classification *)



(* ------------------------------------------------------------------ *)
(** ** C1: the missing-value table *)

Lemma isnull_sum_count (l : list cell) (a : Z) :
  fold_left (fun acc v => (acc + (if isnull v then 1 else 0))%Z) l a
  = (a + Z.of_nat (List.length (filter isnull l)))%Z.
Proof.
  revert a. induction l as [|v l IH]; intro a; simpl.
  - lia.
  - rewrite IH. destruct (isnull v); simpl List.length; lia.
Qed.

Lemma pd_DataFrame3_map {A : Type} (f : A -> string) (g : A -> Z) (h : A -> float)
  (l : list A) :
  pd_DataFrame3 (map f l) (map g l) (map h l)
  = Some (map (fun x => mkMissingRow (f x) (g x) (h x)) l).
Proof.
  induction l as [|x l IH]; simpl; [reflexivity|]. now rewrite IH.
Qed.


(** One null among three rows is 33.33 percent (the binary64 value between
    33.25 and 33.5 that numpy prints so); an empty table gives [NaN]
    as numpy does. *)
Example missing_data_example :
  missing_data (mkDataFrame 3 [mkSeries "a" float64 [Float nan; Float 1; Float 2]])
  = Some [mkMissingRow "a" 1 (np_round2 (PrimFloat.mul (PrimFloat.div 1 3) 100))]
  /\ PrimFloat.ltb 33.25 (np_round2 (PrimFloat.mul (PrimFloat.div 1 3) 100)) = true
  /\ PrimFloat.ltb (np_round2 (PrimFloat.mul (PrimFloat.div 1 3) 100)) 33.5 = true
  /\ missing_data (mkDataFrame 0 [mkSeries "a" float64 []])
     = Some [mkMissingRow "a" 0 nan].
Proof. repeat split; vm_compute; reflexivity. Qed.

(* ------------------------------------------------------------------ *)
(** ** Running the primitives *)

(** Push a computation forward past the calls whose outcome is known. *)
Ltac run := cbv beta iota delta [bind emit ret].

Lemma st_selectbox_run ss label options index key d :
  nth_error options index = Some d ->
  st_selectbox ss label options index key
  = ([St_selectbox label options index key], Return (Some (chosen ss options d key))).
Proof.
  intro E. unfold st_selectbox. destruct options as [|o l].
  - destruct index; discriminate E.
  - rewrite E. reflexivity.
Qed.

Lemma st_multiselect_run ss label options d key :
  In d options ->
  st_multiselect ss label options [d] key
  = ([St_multiselect label options [d] key],
     Return (chosen_many ss options [d] key)).
Proof.
  intro Hd. unfold st_multiselect. simpl forallb.
  apply mem_In in Hd. rewrite Hd. reflexivity.
Qed.

Lemma df_getitem_run df k c :
  getitem df k = Some c -> df_getitem df (Some k) = ([], Return c).
Proof. intro E. unfold df_getitem. now rewrite E. Qed.

Lemma sns_var_run df k c :
  getitem df k = Some c -> sns_var df (Some k) = ([], Return (Some c)).
Proof. intro E. unfold sns_var. now rewrite E. Qed.

Lemma truthy_nonempty {A : Type} (l : list A) : l <> [] -> truthy l = true.
Proof. destruct l; [congruence | reflexivity]. Qed.

Lemma first_nth_error {A : Type} (l : list A) :
  l <> [] -> exists d, nth_error l 0 = Some d /\ In d l /\ first l = ([], Return d).
Proof.
  destruct l as [|d l]; [congruence|]. intros _. exists d. simpl. auto.
Qed.

Lemma getitem_numeric df s :
  In s (numeric_columns df) ->
  exists c, getitem df s = Some c /\ name c = s.
Proof.
  intro Hs. apply numeric_columns_in, getitem_some in Hs.
  destruct Hs as [c [E [Hn _]]]. eauto.
Qed.

Lemma getitem_categorical df s :
  In s (categorical_columns df) ->
  exists c, getitem df s = Some c /\ name c = s.
Proof.
  intro Hs. apply categorical_columns_in, getitem_some in Hs.
  destruct Hs as [c [E [Hn _]]]. eauto.
Qed.

(* ------------------------------------------------------------------ *)
(** ** C9: the Distribution view *)



(* ------------------------------------------------------------------ *)
(** ** The Custom Plot tab, branch by branch *)

Lemma tab3_no_numeric df ss :
  numeric_columns df = [] -> tab3 df ss = ([St_subheader "Custom Plot"], Return tt).
Proof. intro E. unfold tab3. rewrite E. reflexivity. Qed.

(** Past the plot-type selector the tab continues with the branch of the
    option in force. *)
Lemma tab3_dispatch df ss :
  numeric_columns df <> [] ->
  tab3 df ss =
    (emit (St_subheader "Custom Plot") ;;
     emit (St_selectbox "Select plot type" ["Scatter"; "Line"; "Bar"; "Box"] 0 "plot_type") ;;
     if String.eqb (plot_type_of ss) "Scatter" && Nat.leb 2 (List.length (numeric_columns df))
     then scatter df ss
     else if String.eqb (plot_type_of ss) "Line" then line df ss
     else if String.eqb (plot_type_of ss) "Bar" then bar df ss
     else if String.eqb (plot_type_of ss) "Box" then box df ss
     else ret tt).
Proof.
  intro Hne. unfold tab3. rewrite (truthy_nonempty _ Hne).
  rewrite (st_selectbox_run ss "Select plot type" ["Scatter"; "Line"; "Bar"; "Box"]
             0 "plot_type" "Scatter" eq_refl).
  fold (plot_type_of ss). run. cbn [py_eq].
  rewrite !andb_true_r. reflexivity.
Qed.

Lemma scatter_run df ss :
  2 <= List.length (numeric_columns df) ->
  exists a b cx cy,
    nth_error (numeric_columns df) 0 = Some a /\
    nth_error (numeric_columns df) 1 = Some b /\
    name cx = chosen ss (numeric_columns df) a "x_col" /\
    name cy = chosen ss (numeric_columns df) b "y_col" /\
    getitem df (name cx) = Some cx /\
    getitem df (name cy) = Some cy /\
    scatter df ss =
      ([St_selectbox "Select X axis" (numeric_columns df) 0 "x_col";
        St_selectbox "Select Y axis" (numeric_columns df) 1 "y_col";
        Plt_subplots 10 6;
        Sns_scatterplot (Some cx) (Some cy);
        Plt_title (name cy ++ " vs " ++ name cx);
        St_pyplot],
       Return tt).
Proof.
  intro Hlen. unfold scatter.
  destruct (numeric_columns df) as [|a [|b l]] eqn:E; simpl in Hlen; try lia.
  assert (Ha : In a (numeric_columns df)) by (rewrite E; simpl; auto).
  assert (Hb : In b (numeric_columns df)) by (rewrite E; simpl; auto).
  pose proof (chosen_in ss _ a "x_col" Ha) as Hx.
  pose proof (chosen_in ss _ b "y_col" Hb) as Hy.
  destruct (getitem_numeric df _ Hx) as [cx [Gx Nx]].
  destruct (getitem_numeric df _ Hy) as [cy [Gy Ny]].
  rewrite E in Nx, Ny, Gx, Gy.
  exists a, b, cx, cy.
  split; [reflexivity|]. split; [reflexivity|].
  split; [exact Nx|]. split; [exact Ny|].
  split; [now rewrite Nx|]. split; [now rewrite Ny|].
  rewrite (st_selectbox_run ss "Select X axis" (a :: b :: l) 0 "x_col" a eq_refl). run.
  change (if Nat.ltb 1 (List.length (a :: b :: l)) then 1 else 0) with 1.
  rewrite (st_selectbox_run ss "Select Y axis" (a :: b :: l) 1 "y_col" b eq_refl). run.
  rewrite (sns_var_run df _ cx Gx). run.
  rewrite (sns_var_run df _ cy Gy). run.
  rewrite Nx, Ny. reflexivity.
Qed.

Lemma line_empty_run df ss :
  numeric_columns df <> [] -> ss "line_cols" = Some (Choices []) ->
  exists d,
    line df ss = ([St_multiselect "Select columns" (numeric_columns df) [d] "line_cols"],
                  Return tt).
Proof.
  intros Hne Hss. destruct (first_nth_error _ Hne) as [d [_ [Hin Hf]]].
  exists d. unfold line. rewrite Hf. run.
  rewrite (st_multiselect_run ss _ _ d _ Hin). run.
  unfold chosen_many. rewrite Hss. reflexivity.
Qed.

Lemma box_empty_run df ss :
  numeric_columns df <> [] -> ss "box_cols" = Some (Choices []) ->
  exists d,
    box df ss = ([St_multiselect "Select columns" (numeric_columns df) [d] "box_cols"],
                 Return tt).
Proof.
  intros Hne Hss. destruct (first_nth_error _ Hne) as [d [_ [Hin Hf]]].
  exists d. unfold box. rewrite Hf. run.
  rewrite (st_multiselect_run ss _ _ d _ Hin). run.
  unfold chosen_many. rewrite Hss. reflexivity.
Qed.

(* ------------------------------------------------------------------ *)
(** ** C7: the scatter plot's title *)

(** C7.  With at least 2 numeric columns, the Scatter plot type in force
    and the numeric columns [x] and [y] selected as X and Y axis, the
    Custom Plot tab returns normally having drawn the scatter plot of the
    two columns under the title [y vs x] and shown it. *)
Theorem scatter_title (df : DataFrame) (ss : session_state) (x y : string) :
  2 <= List.length (numeric_columns df) ->
  plot_type_of ss = "Scatter" ->
  In x (numeric_columns df) -> In y (numeric_columns df) ->
  ss "x_col" = Some (Choice x) -> ss "y_col" = Some (Choice y) ->
  exists cx cy,
    getitem df x = Some cx /\ getitem df y = Some cy /\
    tab3 df ss =
      ([St_subheader "Custom Plot";
        St_selectbox "Select plot type" ["Scatter"; "Line"; "Bar"; "Box"] 0 "plot_type";
        St_selectbox "Select X axis" (numeric_columns df) 0 "x_col";
        St_selectbox "Select Y axis" (numeric_columns df) 1 "y_col";
        Plt_subplots 10 6;
        Sns_scatterplot (Some cx) (Some cy);
        Plt_title (y ++ " vs " ++ x);
        St_pyplot],
       Return tt).
Proof.
  intros Hlen Hpt Hx Hy Hsx Hsy.
  assert (Hne : numeric_columns df <> []).
  { intro E. rewrite E in Hlen. simpl in Hlen. lia. }
  destruct (scatter_run df ss Hlen) as [a [b [cx [cy [_ [_ [Nx [Ny [Gx [Gy E]]]]]]]]]].
  assert (Ex : name cx = x).
  { rewrite Nx. unfold chosen. rewrite Hsx.
    apply mem_In in Hx. now rewrite Hx. }
  assert (Ey : name cy = y).
  { rewrite Ny. unfold chosen. rewrite Hsy.
    apply mem_In in Hy. now rewrite Hy. }
  exists cx, cy. rewrite <- Ex at 1. rewrite <- Ey at 1.
  split; [exact Gx|]. split; [exact Gy|].
  rewrite (tab3_dispatch df ss Hne), Hpt.
  apply Nat.leb_le in Hlen. rewrite Hlen. cbn [String.eqb Ascii.eqb Bool.eqb andb].
  rewrite E. run. rewrite Ex, Ey. reflexivity.
Qed.

Lemma scatter_title_witness :
  let col := fun n => mkSeries n float64 [Float 1; Float 2] in
  let df := mkDataFrame 2 [col "A"; col "B"; col "C"; col "D"; col "E"] in
  let ss : session_state := fun key =>
    if String.eqb key "x_col" then Some (Choice "A")
    else if String.eqb key "y_col" then Some (Choice "B")
    else None in
  (2 <= List.length (numeric_columns df) /\ plot_type_of ss = "Scatter" /\
   In "A" (numeric_columns df) /\ In "B" (numeric_columns df) /\
   ss "x_col" = Some (Choice "A") /\ ss "y_col" = Some (Choice "B")) /\
  exists cx cy,
    getitem df "A" = Some cx /\ getitem df "B" = Some cy /\
    tab3 df ss =
      ([St_subheader "Custom Plot";
        St_selectbox "Select plot type" ["Scatter"; "Line"; "Bar"; "Box"] 0 "plot_type";
        St_selectbox "Select X axis" (numeric_columns df) 0 "x_col";
        St_selectbox "Select Y axis" (numeric_columns df) 1 "y_col";
        Plt_subplots 10 6;
        Sns_scatterplot (Some cx) (Some cy);
        Plt_title "B vs A";
        St_pyplot],
       Return tt).
Proof.
  intros col df ss.
  assert (H1 : 2 <= List.length (numeric_columns df)) by (vm_compute; lia).
  assert (H2 : plot_type_of ss = "Scatter") by reflexivity.
  assert (H3 : In "A" (numeric_columns df)) by (vm_compute; auto).
  assert (H4 : In "B" (numeric_columns df)) by (vm_compute; auto).
  assert (H5 : ss "x_col" = Some (Choice "A")) by reflexivity.
  assert (H6 : ss "y_col" = Some (Choice "B")) by reflexivity.
  split; [repeat split; assumption|].
  exact (scatter_title df ss "A" "B" H1 H2 H3 H4 H5 H6).
Defined.

(* ------------------------------------------------------------------ *)
(** ** C6: unmet preconditions give no chart and no error *)

Lemma tab1_no_numeric df ss :
  numeric_columns df = [] ->
  tab1 df ss = ([St_subheader "Distribution Analysis"], Return tt).
Proof. intro E. unfold tab1. rewrite E. reflexivity. Qed.

Lemma tab2_few_numeric df ss :
  List.length (numeric_columns df) < 2 ->
  tab2 df ss =
    ([St_subheader "Correlation Analysis";
      St_write [Lit "Need at least two numeric columns for correlation analysis."]],
     Return tt).
Proof.
  intro Hlen. unfold tab2.
  assert (E : Nat.ltb 1 (List.length (numeric_columns df)) = false)
    by (apply Nat.ltb_ge; lia).
  rewrite E. reflexivity.
Qed.

Lemma tab3_scatter_few df ss :
  List.length (numeric_columns df) < 2 -> plot_type_of ss = "Scatter" ->
  tab3 df ss = ([St_subheader "Custom Plot"], Return tt) \/
  tab3 df ss =
    ([St_subheader "Custom Plot";
      St_selectbox "Select plot type" ["Scatter"; "Line"; "Bar"; "Box"] 0 "plot_type"],
     Return tt).
Proof.
  intros Hlen Hpt. destruct (numeric_columns df) as [|a l] eqn:E.
  - left. now apply tab3_no_numeric.
  - right. rewrite tab3_dispatch by (rewrite E; discriminate).
    rewrite Hpt.
    assert (G : Nat.leb 2 (List.length (numeric_columns df)) = false)
      by (apply Nat.leb_gt; rewrite E; exact Hlen).
    rewrite G. reflexivity.
Qed.

Lemma tab3_line_empty df ss :
  plot_type_of ss = "Line" -> ss "line_cols" = Some (Choices []) ->
  tab3 df ss = ([St_subheader "Custom Plot"], Return tt) \/
  exists d,
    tab3 df ss =
      ([St_subheader "Custom Plot";
        St_selectbox "Select plot type" ["Scatter"; "Line"; "Bar"; "Box"] 0 "plot_type";
        St_multiselect "Select columns" (numeric_columns df) [d] "line_cols"],
       Return tt).
Proof.
  intros Hpt Hss. destruct (numeric_columns df) as [|a l] eqn:E.
  - left. now apply tab3_no_numeric.
  - right. assert (Hne : numeric_columns df <> []) by (rewrite E; discriminate).
    destruct (line_empty_run df ss Hne Hss) as [d Hd]. exists d.
    rewrite (tab3_dispatch df ss Hne), Hpt.
    cbn [String.eqb Ascii.eqb Bool.eqb andb]. rewrite Hd, E. reflexivity.
Qed.

Lemma tab3_box_empty df ss :
  plot_type_of ss = "Box" -> ss "box_cols" = Some (Choices []) ->
  tab3 df ss = ([St_subheader "Custom Plot"], Return tt) \/
  exists d,
    tab3 df ss =
      ([St_subheader "Custom Plot";
        St_selectbox "Select plot type" ["Scatter"; "Line"; "Bar"; "Box"] 0 "plot_type";
        St_multiselect "Select columns" (numeric_columns df) [d] "box_cols"],
       Return tt).
Proof.
  intros Hpt Hss. destruct (numeric_columns df) as [|a l] eqn:E.
  - left. now apply tab3_no_numeric.
  - right. assert (Hne : numeric_columns df <> []) by (rewrite E; discriminate).
    destruct (box_empty_run df ss Hne Hss) as [d Hd]. exists d.
    rewrite (tab3_dispatch df ss Hne), Hpt.
    cbn [String.eqb Ascii.eqb Bool.eqb andb]. rewrite Hd, E. reflexivity.
Qed.

Ltac quiet_by E :=
  rewrite E; split; [reflexivity | unfold shows_chart; simpl; intuition discriminate].

(** C6.  When a view's precondition is not met the view returns normally
    and shows no chart: with no numeric column, the Distribution tab and
    every custom plot; with fewer than 2 numeric columns, the Correlation
    tab, which writes its guidance message instead, and the Scatter plot;
    with an empty column selection, the Line and the Box plot. *)
Theorem unmet_precondition_no_chart (df : DataFrame) (ss : session_state) :
  (numeric_columns df = [] -> quiet (tab1 df ss) /\ quiet (tab3 df ss)) /\
  (List.length (numeric_columns df) < 2 ->
     quiet (tab2 df ss) /\
     In (St_write [Lit "Need at least two numeric columns for correlation analysis."])
        (trace (tab2 df ss))) /\
  (List.length (numeric_columns df) < 2 -> plot_type_of ss = "Scatter" ->
     quiet (tab3 df ss)) /\
  (plot_type_of ss = "Line" -> ss "line_cols" = Some (Choices []) ->
     quiet (tab3 df ss)) /\
  (plot_type_of ss = "Box" -> ss "box_cols" = Some (Choices []) ->
     quiet (tab3 df ss)).
Proof.
  split; [|split; [|split; [|split]]].
  - intro E. split.
    + quiet_by (tab1_no_numeric df ss E).
    + quiet_by (tab3_no_numeric df ss E).
  - intro Hlen. pose proof (tab2_few_numeric df ss Hlen) as E. split.
    + quiet_by E.
    + rewrite E. simpl. auto.
  - intros Hlen Hpt. destruct (tab3_scatter_few df ss Hlen Hpt) as [E|E]; quiet_by E.
  - intros Hpt Hss. destruct (tab3_line_empty df ss Hpt Hss) as [E|[d E]]; quiet_by E.
  - intros Hpt Hss. destruct (tab3_box_empty df ss Hpt Hss) as [E|[d E]]; quiet_by E.
Qed.

Lemma unmet_precondition_no_chart_witness :
  let none := mkDataFrame 1 [mkSeries "s" object [Str "u"]] in
  let one := mkDataFrame 1 [mkSeries "A" float64 [Float 1]] in
  let pick : string -> widget_value -> session_state :=
    fun key v k => if String.eqb k "plot_type" then Some (Choice key)
                   else if String.eqb k "line_cols" then Some v
                   else if String.eqb k "box_cols" then Some v
                   else None in
  (quiet (tab1 none (fun _ => None)) /\ quiet (tab3 none (fun _ => None))) /\
  quiet (tab2 one (fun _ => None)) /\
  quiet (tab3 one (fun _ => None)) /\
  quiet (tab3 one (pick "Line" (Choices []))) /\
  quiet (tab3 one (pick "Box" (Choices []))).
Proof.
  intros none one pick.
  split; [|split; [|split; [|split]]].
  - apply (proj1 (unmet_precondition_no_chart none (fun _ => None))). reflexivity.
  - apply (proj1 (proj2 (unmet_precondition_no_chart one (fun _ => None)))).
    vm_compute. lia.
  - apply (proj1 (proj2 (proj2 (unmet_precondition_no_chart one (fun _ => None))))).
    + vm_compute. lia.
    + reflexivity.
  - apply (proj1 (proj2 (proj2 (proj2
             (unmet_precondition_no_chart one (pick "Line" (Choices []))))))).
    + reflexivity.
    + reflexivity.
  - apply (proj2 (proj2 (proj2 (proj2
             (unmet_precondition_no_chart one (pick "Box" (Choices []))))))).
    + reflexivity.
    + reflexivity.
Defined.

(* ------------------------------------------------------------------ *)
(** ** C8: when the scatter plot appears, and its default Y axis *)







(* ------------------------------------------------------------------ *)
(** ** C5: the bar chart's aggregation *)






















Lemma bar_grouped_run df ss :
  numeric_columns df <> [] -> categorical_columns df <> [] ->
  exists kx vy,
    In (name kx) (categorical_columns df) /\
    In (name vy) (numeric_columns df) /\
    getitem df (name kx) = Some kx /\
    getitem df (name vy) = Some vy /\
    bar df ss =
      ([St_selectbox "Select category (X axis)" (categorical_columns df) 0 "bar_x";
        St_selectbox "Select value (Y axis)" (numeric_columns df) 0 "bar_y";
        Plt_subplots 10 6;
        Sns_barplot (groupby_mean kx vy) (name kx) (name vy);
        Plt_title ("Average " ++ name vy ++ " by " ++ name kx);
        Plt_xticks 45;
        St_pyplot],
       Return tt).
Proof.
  intros Hn Hc.
  destruct (first_nth_error _ Hn) as [dn [Hdn [Hin_n _]]].
  destruct (first_nth_error _ Hc) as [dc [Hdc [Hin_c _]]].
  pose proof (chosen_in ss _ dc "bar_x" Hin_c) as Hx.
  pose proof (chosen_in ss _ dn "bar_y" Hin_n) as Hy.
  destruct (getitem_categorical df _ Hx) as [kx [Gx Nx]].
  destruct (getitem_numeric df _ Hy) as [vy [Gy Ny]].
  exists kx, vy. rewrite Nx, Ny.
  repeat (split; [assumption|]).
  unfold bar. rewrite (truthy_nonempty _ Hc).
  rewrite (st_selectbox_run ss _ _ _ _ dc Hdc). run.
  rewrite (st_selectbox_run ss _ _ _ _ dn Hdn). run.
  rewrite (df_getitem_run df _ kx Gx). run.
  rewrite (df_getitem_run df _ vy Gy). run.
  reflexivity.
Qed.

Lemma bar_raw_run df ss :
  numeric_columns df <> [] -> categorical_columns df = [] ->
  exists vy,
    In (name vy) (numeric_columns df) /\
    getitem df (name vy) = Some vy /\
    bar df ss =
      ([St_selectbox "Select column for bar chart" (numeric_columns df) 0 "bar_y_only";
        Plt_subplots 10 6;
        Sns_barplot_index (Some vy);
        Plt_title ("Bar Plot of " ++ name vy);
        St_pyplot],
       Return tt).
Proof.
  intros Hn Hc.
  destruct (first_nth_error _ Hn) as [dn [Hdn [Hin_n _]]].
  pose proof (chosen_in ss _ dn "bar_y_only" Hin_n) as Hy.
  destruct (getitem_numeric df _ Hy) as [vy [Gy Ny]].
  exists vy. rewrite Ny.
  repeat (split; [assumption|]).
  unfold bar. rewrite Hc. cbn [truthy].
  rewrite (st_selectbox_run ss _ _ _ _ dn Hdn). run.
  rewrite (sns_var_run df _ vy Gy). run.
  reflexivity.
Qed.



(** The specification's example: labels x, x, y with values 10, 20, 30. *)
Example groupby_mean_example :
  groupby_mean (mkSeries "cat" object [Str "x"; Str "x"; Str "y"])
               (mkSeries "val" int64 [Int 10; Int 20; Int 30])
  = [("x", 15%float); ("y", 30%float)].
Proof. vm_compute. reflexivity. Qed.


(* ------------------------------------------------------------------ *)
(** ** C3: the memoized loader *)

Section LoaderFacts.
Variable rng : Type.
Variable randn : rng -> (nat -> nat -> float) * rng.
Variable read_csv : UploadedFile -> outcome DataFrame.

Let load := load_data rng randn read_csv.
Let load_keyed := load_data_keyed rng randn read_csv.

(** A filled cache answers every call, whatever the upload. *)
Lemma load_data_hit (w : world rng) (data : DataFrame)
  (uploaded_file : option UploadedFile) :
  cached rng w = Some data -> load uploaded_file w = (Return data, w).
Proof. intro E. unfold load, load_data. now rewrite E. Qed.

(** A pass that returns a table leaves it in the cache. *)
Lemma load_data_fills (w : world rng) (data : DataFrame)
  (uploaded_file : option UploadedFile) :
  fst (load uploaded_file w) = Return data ->
  cached rng (snd (load uploaded_file w)) = Some data.
Proof.
  unfold load, load_data. destruct (cached rng w) as [d|] eqn:E.
  - simpl. intro H. inversion H; subst. exact E.
  - destruct (load_data_body rng randn read_csv uploaded_file (gen rng w))
      as [[d|e] g']; simpl; intro H; inversion H; subst. reflexivity.
Qed.

(** Re-rendering returns the table of the pass before and leaves the
    state as it is, with the same upload and with any other. *)
Lemma load_data_rerun (w : world rng) (data : DataFrame)
  (uploaded_file uploaded_file' : option UploadedFile) :
  fst (load uploaded_file w) = Return data ->
  load uploaded_file' (snd (load uploaded_file w))
  = (Return data, snd (load uploaded_file w)).
Proof. intro H. apply load_data_hit. now apply load_data_fills. Qed.

(** C3 (where the code departs from it).  After a first render pass
    without an upload, a pass with an uploaded file [f] does not read
    [f]: [load_data] returns the placeholder generated in the first
    pass.  Under the memoization the specification describes, keyed by the
    upload, the same pass returns what reading [f] gives. *)
Theorem upload_after_placeholder_is_ignored (g : rng) (f : UploadedFile) :
  let w1 := snd (load None (mkWorld rng None g)) in
  let k1 := snd (load_keyed None (mkKeyedWorld rng [] g)) in
  fst (load (Some f) w1) = Return (placeholder (fst (randn g))) /\
  fst (load_keyed (Some f) k1) = read_csv f.
Proof.
  unfold load, load_keyed, load_data, load_data_keyed, load_data_body. simpl.
  destruct (randn g) as [sample g']. simpl. split; [reflexivity|].
  destruct (read_csv f); reflexivity.
Qed.
End LoaderFacts.

(** The same at a concrete run: a generator that yields zeros and a reader
    that returns a one-column table for the uploaded file. *)
Example stale_upload_example :
  let randn := fun g : nat => (fun _ _ : nat => 0%float, S g) in
  let uploaded := mkDataFrame 1 [mkSeries "x" int64 [Int 1]] in
  let read_csv := fun _ : UploadedFile => Return uploaded in
  let f := mkUploadedFile 1 "data.csv" "x" in
  let w1 := snd (load_data nat randn read_csv None (mkWorld nat None 0)) in
  fst (load_data nat randn read_csv (Some f) w1)
  = Return (placeholder (fun _ _ => 0%float)) /\
  placeholder (fun _ _ => 0%float) <> uploaded.
Proof.
  split; [reflexivity|]. intro H. apply (f_equal index_len) in H. discriminate H.
Qed.

(* ------------------------------------------------------------------ *)
(** ** C4: the correlation matrix *)

Section NancorrFacts.
Context {F : Type} `{Arith F}.


Lemma nancorr_length (mat : list (list (option F))) :
  List.length (nancorr mat) = List.length mat.
Proof. unfold nancorr. now rewrite length_map, length_seq. Qed.

Lemma nancorr_nth (mat : list (list (option F))) (i j : nat) (d : option F) :
  i < List.length mat -> j < List.length mat ->
  entry d (nancorr mat) i j = nancorr_entry mat i j.
Proof.
  intros Hi Hj. unfold entry, nancorr.
  set (K := List.length mat).
  set (row := fun i => map (fun j => nancorr_entry mat i j) (seq 0 K)).
  rewrite (nth_indep (map row (seq 0 K)) [] (row 0))
    by (now rewrite length_map, length_seq).
  rewrite (map_nth row), seq_nth by assumption. unfold row. simpl.
  rewrite (nth_indep _ d ((fun j => nancorr_entry mat i j) 0))
    by (now rewrite length_map, length_seq).
  rewrite (map_nth (fun j => nancorr_entry mat i j)), seq_nth by assumption.
  reflexivity.
Qed.

(** Outside the matrix there is nothing to read. *)
Lemma nancorr_outside (mat : list (list (option F))) (i j : nat) (d : option F) :
  List.length mat <= i \/ List.length mat <= j ->
  entry d (nancorr mat) i j = d.
Proof.
  intro Hout. unfold entry.
  destruct (Nat.lt_ge_cases i (List.length mat)) as [Hi|Hi].
  - destruct Hout as [Hout|Hj]; [lia|].
    apply nth_overflow. unfold nancorr.
    set (K := List.length mat).
    set (row := fun i => map (fun j => nancorr_entry mat i j) (seq 0 K)).
    rewrite (nth_indep (map row (seq 0 K)) [] (row 0))
      by (now rewrite length_map, length_seq).
    rewrite (map_nth row), seq_nth by assumption. unfold row.
    now rewrite length_map, length_seq.
  - rewrite (nth_overflow (nancorr mat)) by (now rewrite nancorr_length).
    now destruct j.
Qed.

End NancorrFacts.

Lemma entry_map {A B : Type} (f : A -> B) (d : A) (m : list (list A)) (i j : nat) :
  entry (f d) (map (map f) m) i j = f (entry d m i j).
Proof.
  unfold entry.
  change (@nil B) with (map f (@nil A)). rewrite (map_nth (map f)).
  apply map_nth.
Qed.


Lemma df_getitems_run (df : DataFrame) (keys : list string) :
  (forall k, In k keys -> In k (map name (columns df))) ->
  exists cols,
    df_getitems df keys = ([], Return cols) /\
    map name cols = keys /\
    Forall (fun c => getitem df (name c) = Some c) cols.
Proof.
  induction keys as [|k keys IH]; intro Hk.
  - exists []. simpl. repeat split. constructor.
  - destruct IH as [cols [E [Hn Hc]]]; [intros; apply Hk; now right|].
    destruct (getitem_some df k (Hk k (or_introl eq_refl))) as [c [Gc [Nc _]]].
    exists (c :: cols). cbn [df_getitems].
    rewrite (df_getitem_run df k c Gc). run. rewrite E. run.
    split; [reflexivity|]. split; [simpl; now rewrite Nc, Hn|].
    constructor; [now rewrite Nc | exact Hc].
Qed.




(* ------------------------------------------------------------------ *)
(** ** The diagonal in exact arithmetic *)

Local Open Scope R_scope.


Lemma inv_INR_S_bounds (n : nat) : 0 < 1 / INR (S n) <= 1.
Proof.
  assert (H1 : 1 <= INR (S n)) by (rewrite S_INR; pose proof (pos_INR n); lra).
  unfold Rdiv. rewrite Rmult_1_l. split.
  - apply Rinv_0_lt_compat. lra.
  - assert (Hle : / INR (S n) <= / 1) by (apply Rinv_le_contravar; lra).
    now rewrite Rinv_1 in Hle.
Qed.





(** A row never lowers the sum of squared deviations. *)
Lemma welford_step_mono (w : welford) (x : R) :
  ssqdm_x w <= ssqdm_x (welford_step w x x).
Proof.
  unfold welford_step. cbn -[INR].
  pose proof (inv_INR_S_bounds (w_nobs w)) as [Ht0 Ht1].
  set (t := 1 / INR (S (w_nobs w))) in *.
  set (dx := x - meanx w).
  replace (x - (meanx w + t * dx)) with ((1 - t) * dx) by (unfold dx; ring).
  assert (0 <= (1 - t) * dx * dx); [|lra].
  rewrite Rmult_assoc. apply Rmult_le_pos; [lra|]. apply Rle_0_sqr.
Qed.

Lemma welford_self_mono (xs : list R) (w : welford) :
  ssqdm_x w <= ssqdm_x (welford_self xs w).
Proof.
  revert w. induction xs as [|x xs IH]; intro w; simpl; [lra|].
  eapply Rle_trans; [apply welford_step_mono | apply IH].
Qed.








Lemma welford_self_nonneg (xs : list R) : 0 <= ssqdm_x (welford_self xs welford0).
Proof. exact (welford_self_mono xs welford0). Qed.





Local Close Scope R_scope.

(* ------------------------------------------------------------------ *)
(** ** C2: the CSV download read back *)

Module CsvFacts.
Import Csv.











Lemma step_quoted (c : ascii) acc fs ls :
  step (mkParser IN_QUOTED_FIELD acc fs ls) c
  = if Ascii.eqb c dquote then mkParser QUOTE_IN_QUOTED_FIELD acc fs ls
    else mkParser IN_QUOTED_FIELD (acc ++ String c EmptyString) fs ls.
Proof. unfold step. cbn [state]. now destruct (Ascii.eqb c dquote). Qed.



































End CsvFacts.

(* ================================================================== *)
(** * Further properties of the script *)

(* ------------------------------------------------------------------ *)
(** ** Helpers: the Distribution tab and the missing-value table, run *)

Lemma tab1_run (df : DataFrame) (ss : session_state) :
  numeric_columns df <> [] ->
  exists d c,
    nth_error (numeric_columns df) 0 = Some d /\
    name c = chosen ss (numeric_columns df) d "hist_col" /\
    tab1 df ss =
      ([St_subheader "Distribution Analysis";
        St_selectbox "Select column for histogram" (numeric_columns df) 0 "hist_col";
        Plt_subplots 10 6;
        Sns_histplot c true;
        Plt_title ("Distribution of " ++ name c);
        Plt_xlabel (name c);
        Plt_ylabel "Frequency";
        St_pyplot;
        St_write [Lit "Mean: "; Fixed2 Mean c];
        St_write [Lit "Median: "; Fixed2 Median c];
        St_write [Lit "Std Dev: "; Fixed2 Std c]],
       Return tt).
Proof.
  intro Hne.
  destruct (first_nth_error _ Hne) as [d [Hd [Hin _]]].
  pose proof (chosen_in ss _ d "hist_col" Hin) as Hsel.
  destruct (getitem_numeric df _ Hsel) as [c [Hget Hname]].
  exists d, c. split; [exact Hd|]. split; [exact Hname|].
  unfold tab1. rewrite (truthy_nonempty _ Hne).
  rewrite (st_selectbox_run ss _ _ _ _ d Hd). run.
  rewrite (df_getitem_run df _ c Hget). run.
  rewrite Hname. reflexivity.
Qed.

Lemma missing_data_total (df : DataFrame) :
  missing_data df
  = Some (map (fun c =>
                 mkMissingRow (name c) (Z.of_nat (missing_count c))
                   (np_round2 (PrimFloat.mul
                                 (PrimFloat.div (float_of_nat (missing_count c))
                                                (float_of_nat (len df)))
                                 100%float)))
              (columns df)).
Proof.
  unfold missing_data, percentage_array, isnull_sum.
  rewrite map_map.
  rewrite (pd_DataFrame3_map name
             (fun c => fold_left (fun acc v => (acc + (if isnull v then 1 else 0))%Z)
                                 (values c) 0%Z)).
  f_equal. apply map_ext. intro c.
  rewrite isnull_sum_count. reflexivity.
Qed.

(* ------------------------------------------------------------------ *)
(** ** The Line and Box plots with a selection *)

Lemma for_each_lineplot_run (df : DataFrame) (sel : list string) :
  (forall col, In col sel -> In col (map name (columns df))) ->
  for_each sel (fun col => y <- sns_var df (Some col) ;; emit (Sns_lineplot y col))
  = (map (fun col => Sns_lineplot (getitem df col) col) sel, Return tt).
Proof.
  induction sel as [|col sel IH]; intro Hsel; [reflexivity|].
  cbn [for_each map].
  rewrite IH by (intros; apply Hsel; now right).
  destruct (getitem_some df col (Hsel col (or_introl eq_refl))) as [c [Gc _]].
  rewrite (sns_var_run df col c Gc), Gc. reflexivity.
Qed.

Lemma chosen_many_numeric df ss d key :
  In d (numeric_columns df) ->
  forall col, In col (chosen_many ss (numeric_columns df) [d] key) ->
              In col (numeric_columns df).
Proof.
  intros Hd. apply chosen_many_in. intros v [<-|[]]. exact Hd.
Qed.

Lemma line_run (df : DataFrame) (ss : session_state) :
  numeric_columns df <> [] ->
  exists d,
    nth_error (numeric_columns df) 0 = Some d /\
    line df ss =
      (St_multiselect "Select columns" (numeric_columns df) [d] "line_cols"
       :: match chosen_many ss (numeric_columns df) [d] "line_cols" with
          | [] => []
          | sel =>
              Plt_subplots 10 6
              :: map (fun col => Sns_lineplot (getitem df col) col) sel
              ++ [Plt_title "Line Plot"; Plt_legend; St_pyplot]
          end,
       Return tt).
Proof.
  intro Hne. destruct (first_nth_error _ Hne) as [d [Hd [Hin Hf]]].
  exists d. split; [exact Hd|].
  unfold line.
  set (body := fun col : string =>
                 y <- sns_var df (Some col) ;; emit (Sns_lineplot y col)).
  rewrite Hf. run.
  rewrite (st_multiselect_run ss _ _ d _ Hin). run.
  pose proof (chosen_many_numeric df ss d "line_cols" Hin) as Hsel.
  destruct (chosen_many ss (numeric_columns df) [d] "line_cols") as [|c sel];
    [reflexivity|].
  cbn [truthy]. unfold body.
  rewrite for_each_lineplot_run
    by (intros col Hc; apply numeric_columns_in; now apply Hsel).
  reflexivity.
Qed.

Lemma box_run (df : DataFrame) (ss : session_state) :
  numeric_columns df <> [] ->
  exists d cols,
    nth_error (numeric_columns df) 0 = Some d /\
    map name cols = chosen_many ss (numeric_columns df) [d] "box_cols" /\
    Forall (fun c => getitem df (name c) = Some c) cols /\
    box df ss =
      (St_multiselect "Select columns" (numeric_columns df) [d] "box_cols"
       :: match cols with
          | [] => []
          | _ :: _ =>
              [Plt_subplots 10 6;
               Sns_boxplot (pd_melt cols) "variable" "value";
               Plt_title "Box Plot";
               Plt_xticks 45;
               St_pyplot]
          end,
       Return tt).
Proof.
  intro Hne. destruct (first_nth_error _ Hne) as [d [Hd [Hin Hf]]].
  pose proof (chosen_many_numeric df ss d "box_cols" Hin) as Hsel.
  destruct (df_getitems_run df (chosen_many ss (numeric_columns df) [d] "box_cols"))
    as [cols [Eg [Hn Hc]]].
  { intros k Hk. apply numeric_columns_in. now apply Hsel. }
  exists d, cols. repeat (split; [assumption|]).
  unfold box. rewrite Hf. run.
  rewrite (st_multiselect_run ss _ _ d _ Hin). run.
  rewrite <- Hn in *.
  destruct cols as [|c cols]; [reflexivity|].
  cbn [map truthy]. run. cbn [map] in Eg. rewrite Eg. reflexivity.
Qed.


(* ------------------------------------------------------------------ *)
(** ** The tabs never raise, and show every figure they create *)

Lemma bind_returns {A B : Type} (m : M A) (k : A -> M B) (a : A) :
  result m = Return a ->
  result (bind m k) = result (k a) /\
  trace (bind m k) = trace m ++ trace (k a).
Proof.
  destruct m as [t r]. simpl. intros ->. unfold bind.
  destruct (k a) as [t' r']. simpl. auto.
Qed.

Lemma tidy_eq (m : M unit) (t : list call) :
  m = (t, Return tt) ->
  count is_subplots t = count is_pyplot t -> count is_pyplot t <= 1 -> tidy m.
Proof. intros -> H1 H2. repeat split; assumption. Qed.

Lemma lineplots_no_figure (df : DataFrame) (sel : list string) (p : call -> bool) :
  (forall y l, p (Sns_lineplot y l) = false) ->
  filter p (map (fun col => Sns_lineplot (getitem df col) col) sel) = [].
Proof.
  intro Hp. induction sel as [|c sel IH]; [reflexivity|].
  cbn [map filter]. now rewrite Hp.
Qed.

Lemma tab1_tidy df ss : tidy (tab1 df ss).
Proof.
  destruct (numeric_columns df) as [|a l] eqn:E.
  - apply (tidy_eq _ _ (tab1_no_numeric df ss E));
    unfold count; simpl; lia.
  - assert (Hne : numeric_columns df <> []) by (rewrite E; discriminate).
    destruct (tab1_run df ss Hne) as [d [c [_ [_ Et]]]].
    apply (tidy_eq _ _ Et);
    unfold count; simpl; lia.
Qed.

(** The heat map without the assumption of unique column names. *)
Lemma tab2_heatmap_run df ss :
  2 <= List.length (numeric_columns df) ->
  exists cols,
    map name cols = numeric_columns df /\
    tab2 df ss =
      ([St_subheader "Correlation Analysis";
        Plt_subplots 10 8;
        Sns_heatmap (numeric_columns df) (corr cols) true "coolwarm" ".2f";
        Plt_title "Correlation Matrix";
        St_pyplot],
       Return tt).
Proof.
  intro Hge. unfold tab2.
  assert (E : Nat.ltb 1 (List.length (numeric_columns df)) = true)
    by (apply Nat.ltb_lt; lia).
  rewrite E.
  destruct (df_getitems_run df (numeric_columns df) (numeric_columns_in df))
    as [cols [Eg [Hn _]]].
  exists cols. split; [exact Hn|].
  run. rewrite Eg. run. rewrite Hn. reflexivity.
Qed.

Lemma tab2_tidy df ss : tidy (tab2 df ss).
Proof.
  destruct (Nat.lt_ge_cases (List.length (numeric_columns df)) 2) as [Hlt|Hge].
  - apply (tidy_eq _ _ (tab2_few_numeric df ss Hlt));
    unfold count; simpl; lia.
  - destruct (tab2_heatmap_run df ss Hge) as [cols [_ E]].
    apply (tidy_eq _ _ E); unfold count; cbn [filter is_subplots is_pyplot List.length]; lia.
Qed.

Lemma scatter_tidy df ss :
  2 <= List.length (numeric_columns df) -> tidy (scatter df ss).
Proof.
  intro Hlen.
  destruct (scatter_run df ss Hlen) as [a [b [cx [cy [_ [_ [_ [_ [_ [_ E]]]]]]]]]].
  apply (tidy_eq _ _ E);
    unfold count; simpl; lia.
Qed.

Lemma line_tidy df ss : numeric_columns df <> [] -> tidy (line df ss).
Proof.
  intro Hne. destruct (line_run df ss Hne) as [d [_ E]].
  destruct (chosen_many ss (numeric_columns df) [d] "line_cols") as [|c sel].
  - apply (tidy_eq _ _ E);
    unfold count; simpl; lia.
  - apply (tidy_eq _ _ E); unfold count; cbn [filter is_subplots is_pyplot];
      rewrite ?filter_app;
      change (Sns_lineplot (getitem df c) c
              :: map (fun col => Sns_lineplot (getitem df col) col) sel)
        with (map (fun col => Sns_lineplot (getitem df col) col) (c :: sel));
      rewrite !lineplots_no_figure by reflexivity; simpl; lia.
Qed.

Lemma bar_tidy df ss : numeric_columns df <> [] -> tidy (bar df ss).
Proof.
  intro Hne. destruct (categorical_columns df) as [|a l] eqn:Ec.
  - destruct (bar_raw_run df ss Hne Ec) as [vy [_ [_ E]]].
    apply (tidy_eq _ _ E);
    unfold count; simpl; lia.
  - assert (Hc : categorical_columns df <> []) by (rewrite Ec; discriminate).
    destruct (bar_grouped_run df ss Hne Hc) as [kx [vy [_ [_ [_ [_ E]]]]]].
    apply (tidy_eq _ _ E);
    unfold count; simpl; lia.
Qed.

Lemma box_tidy df ss : numeric_columns df <> [] -> tidy (box df ss).
Proof.
  intro Hne. destruct (box_run df ss Hne) as [d [cols [_ [_ [_ E]]]]].
  destruct cols; apply (tidy_eq _ _ E);
    unfold count; simpl; lia.
Qed.

Lemma tab3_tidy df ss : tidy (tab3 df ss).
Proof.
  destruct (numeric_columns df) as [|a l] eqn:En.
  - apply (tidy_eq _ _ (tab3_no_numeric df ss En));
    unfold count; simpl; lia.
  - assert (Hne : numeric_columns df <> []) by (rewrite En; discriminate).
    rewrite (tab3_dispatch df ss Hne).
    assert (Hwrap : forall m : M unit, tidy m ->
              tidy (emit (St_subheader "Custom Plot") ;;
                    emit (St_selectbox "Select plot type"
                            ["Scatter"; "Line"; "Bar"; "Box"] 0 "plot_type") ;; m)).
    { intros [t r] [Hr [Hc Hp]]. simpl in Hr. subst r. run.
      unfold count in *. repeat split; simpl; assumption. }
    apply Hwrap.
    destruct (String.eqb (plot_type_of ss) "Scatter"
              && Nat.leb 2 (List.length (numeric_columns df))) eqn:G.
    { apply andb_prop in G. destruct G as [_ G]. apply Nat.leb_le in G.
      now apply scatter_tidy. }
    destruct (String.eqb (plot_type_of ss) "Line"); [now apply line_tidy|].
    destruct (String.eqb (plot_type_of ss) "Bar"); [now apply bar_tidy|].
    destruct (String.eqb (plot_type_of ss) "Box"); [now apply box_tidy|].
    repeat split; unfold count; simpl; lia.
Qed.


Lemma visualizations_run (df : DataFrame) (ss : session_state) :
  result (visualizations df ss) = Return tt /\
  trace (visualizations df ss)
  = trace (tab1 df ss) ++ trace (tab2 df ss) ++ trace (tab3 df ss).
Proof.
  destruct (tab1_tidy df ss) as [R1 _].
  destruct (tab2_tidy df ss) as [R2 _].
  unfold visualizations.
  destruct (bind_returns (tab1 df ss) (fun _ => tab2 df ss ;; tab3 df ss) tt R1)
    as [E1 T1].
  destruct (bind_returns (tab2 df ss) (fun _ => tab3 df ss) tt R2) as [E2 T2].
  split.
  - rewrite E1, E2. apply tab3_tidy.
  - now rewrite T1, T2.
Qed.



(* ------------------------------------------------------------------ *)
(** ** The Line plot, the Box plot, the first visit *)

Lemma tab3_branch df ss (m : M unit) (t : list call) :
  numeric_columns df <> [] ->
  tab3 df ss =
    (emit (St_subheader "Custom Plot") ;;
     emit (St_selectbox "Select plot type" ["Scatter"; "Line"; "Bar"; "Box"] 0 "plot_type") ;;
     m) ->
  m = (t, Return tt) ->
  tab3 df ss =
    (St_subheader "Custom Plot"
     :: St_selectbox "Select plot type" ["Scatter"; "Line"; "Bar"; "Box"] 0 "plot_type"
     :: t, Return tt).
Proof. intros _ E ->. rewrite E. reflexivity. Qed.

(** X3.  With the Line plot type in force and a numeric column, the
    selection is the user's when all its entries are numeric columns and
    the first numeric column otherwise; when it is not empty the tab draws,
    in one figure, one line per selected column in selection order, each
    labelled with its column name, then the title, the legend and the
    figure. *)
Theorem line_plot (df : DataFrame) (ss : session_state) :
  numeric_columns df <> [] -> plot_type_of ss = "Line" ->
  exists d,
    nth_error (numeric_columns df) 0 = Some d /\
    (ss "line_cols" = None ->
     chosen_many ss (numeric_columns df) [d] "line_cols" = [d]) /\
    Forall (fun col => In col (numeric_columns df) /\
                       exists c, getitem df col = Some c /\ name c = col)
           (chosen_many ss (numeric_columns df) [d] "line_cols") /\
    (chosen_many ss (numeric_columns df) [d] "line_cols" <> [] ->
     tab3 df ss =
       ([St_subheader "Custom Plot";
         St_selectbox "Select plot type" ["Scatter"; "Line"; "Bar"; "Box"] 0 "plot_type";
         St_multiselect "Select columns" (numeric_columns df) [d] "line_cols";
         Plt_subplots 10 6]
        ++ map (fun col => Sns_lineplot (getitem df col) col)
               (chosen_many ss (numeric_columns df) [d] "line_cols")
        ++ [Plt_title "Line Plot"; Plt_legend; St_pyplot],
        Return tt)).
Proof.
  intros Hne Hpt. destruct (line_run df ss Hne) as [d [Hd E]].
  exists d. split; [exact Hd|].
  assert (Hin : In d (numeric_columns df)) by (eapply nth_error_In; exact Hd).
  split; [intro Hss; unfold chosen_many; now rewrite Hss|].
  split.
  - apply Forall_forall. intros col Hcol.
    pose proof (chosen_many_numeric df ss d "line_cols" Hin col Hcol) as Hnum.
    split; [exact Hnum | now apply getitem_numeric].
  - intro Hsel.
    assert (Ed : tab3 df ss =
                 (emit (St_subheader "Custom Plot") ;;
                  emit (St_selectbox "Select plot type"
                          ["Scatter"; "Line"; "Bar"; "Box"] 0 "plot_type") ;;
                  line df ss)).
    { rewrite (tab3_dispatch df ss Hne), Hpt. reflexivity. }
    rewrite (tab3_branch df ss _ _ Hne Ed E).
    destruct (chosen_many ss (numeric_columns df) [d] "line_cols");
      [congruence | reflexivity].
Qed.

Lemma line_plot_witness :
  let col := fun n => mkSeries n float64 [Float 1; Float 2] in
  let df := mkDataFrame 2 [col "A"; col "B"; col "C"] in
  let ss : session_state := fun key =>
    if String.eqb key "plot_type" then Some (Choice "Line")
    else if String.eqb key "line_cols" then Some (Choices ["C"; "A"])
    else None in
  (numeric_columns df <> [] /\ plot_type_of ss = "Line") /\
  tab3 df ss =
    ([St_subheader "Custom Plot";
      St_selectbox "Select plot type" ["Scatter"; "Line"; "Bar"; "Box"] 0 "plot_type";
      St_multiselect "Select columns" ["A"; "B"; "C"] ["A"] "line_cols";
      Plt_subplots 10 6;
      Sns_lineplot (Some (col "C")) "C";
      Sns_lineplot (Some (col "A")) "A";
      Plt_title "Line Plot"; Plt_legend; St_pyplot],
     Return tt).
Proof.
  intros col df ss.
  assert (H1 : numeric_columns df <> []) by (vm_compute; discriminate).
  assert (H2 : plot_type_of ss = "Line") by reflexivity.
  split; [split; assumption|].
  destruct (line_plot df ss H1 H2) as [d [Hd [_ [_ E]]]].
  vm_compute in Hd. injection Hd as <-.
  rewrite E by (vm_compute; discriminate). reflexivity.
Defined.



(** X5.  On a first visit, when no widget holds a choice, a table with at
    least 2 numeric columns gets the scatter plot of its second numeric
    column against its first, titled with the two names. *)
Theorem first_visit_custom_plot (df : DataFrame) :
  2 <= List.length (numeric_columns df) ->
  exists a b cx cy,
    nth_error (numeric_columns df) 0 = Some a /\
    nth_error (numeric_columns df) 1 = Some b /\
    getitem df a = Some cx /\ getitem df b = Some cy /\
    tab3 df (fun _ => None) =
      ([St_subheader "Custom Plot";
        St_selectbox "Select plot type" ["Scatter"; "Line"; "Bar"; "Box"] 0 "plot_type";
        St_selectbox "Select X axis" (numeric_columns df) 0 "x_col";
        St_selectbox "Select Y axis" (numeric_columns df) 1 "y_col";
        Plt_subplots 10 6;
        Sns_scatterplot (Some cx) (Some cy);
        Plt_title (b ++ " vs " ++ a);
        St_pyplot],
       Return tt).
Proof.
  intro Hlen.
  assert (Hne : numeric_columns df <> []).
  { intro E. rewrite E in Hlen. simpl in Hlen. lia. }
  destruct (scatter_run df (fun _ => None) Hlen)
    as [a [b [cx [cy [Ha [Hb [Nx [Ny [Gx [Gy E]]]]]]]]]].
  unfold chosen in Nx, Ny. rewrite Nx in Gx. rewrite Ny in Gy.
  exists a, b, cx, cy. repeat (split; [assumption|]).
  rewrite (tab3_dispatch df _ Hne).
  apply Nat.leb_le in Hlen. rewrite Hlen.
  change (plot_type_of (fun _ => None)) with "Scatter".
  cbn [String.eqb Ascii.eqb Bool.eqb andb].
  rewrite E. run. rewrite Nx, Ny. reflexivity.
Qed.

Lemma first_visit_custom_plot_witness :
  let col := fun n => mkSeries n float64 [Float 1; Float 2] in
  let df := mkDataFrame 2 [col "A"; mkSeries "s" object [Str "u"; Str "v"]; col "B"] in
  2 <= List.length (numeric_columns df) /\
  In (Plt_title "B vs A") (trace (tab3 df (fun _ => None))).
Proof.
  intros col df.
  assert (H : 2 <= List.length (numeric_columns df)) by (vm_compute; lia).
  split; [exact H|].
  destruct (first_visit_custom_plot df H) as [a [b [cx [cy [Ha [Hb [_ [_ E]]]]]]]].
  vm_compute in Ha, Hb. injection Ha as <-. injection Hb as <-.
  rewrite E. simpl. auto 10.
Defined.

(* ------------------------------------------------------------------ *)
(** ** Shape and range of the correlation matrix *)

Lemma clip_range (val : float) :
  PrimFloat.ltb 1 (clip val) = false /\ PrimFloat.ltb (clip val) (-1) = false.
Proof.
  unfold clip. cbn [fltb fone fopp float_arith].
  destruct (PrimFloat.ltb 1 val) eqn:E1; [split; reflexivity|].
  destruct (PrimFloat.ltb val (PrimFloat.opp 1)) eqn:E2; [split; reflexivity|].
  split; [exact E1 | exact E2].
Qed.

Lemma corr_pair_range (colx coly : list (option float)) :
  PrimFloat.ltb 1 (unmask (corr_pair colx coly)) = false /\
  PrimFloat.ltb (unmask (corr_pair colx coly)) (-1) = false.
Proof.
  unfold corr_pair.
  destruct (Nat.ltb _ 1); [split; reflexivity|].
  destruct (negb _); [apply clip_range | split; reflexivity].
Qed.

(** X6.  The matrix of the heat map is square, one row and one column per
    numeric column, and none of its entries is above 1 or below -1: an
    entry is a correlation clipped to [-1, 1] or [NaN]. *)
Theorem corr_shape_and_range (cols : list Series) :
  List.length (corr cols) = List.length cols /\
  Forall (fun row => List.length row = List.length cols) (corr cols) /\
  forall i j,
    PrimFloat.ltb 1 (entry nan (corr cols) i j) = false /\
    PrimFloat.ltb (entry nan (corr cols) i j) (-1) = false.
Proof.
  unfold corr.
  set (mat := map (fun c => map finite_float (values c)) cols).
  assert (HK : List.length mat = List.length cols) by (unfold mat; apply length_map).
  split; [now rewrite length_map, nancorr_length|]. split.
  - apply Forall_forall. intros row Hrow.
    apply in_map_iff in Hrow. destruct Hrow as [r [<- Hr]].
    unfold nancorr in Hr. apply in_map_iff in Hr. destruct Hr as [i [<- _]].
    now rewrite !length_map, length_seq.
  - intros i j. change nan with (unmask None). rewrite entry_map.
    destruct (Nat.lt_ge_cases i (List.length mat)) as [Hi|Hi];
      [destruct (Nat.lt_ge_cases j (List.length mat)) as [Hj|Hj]|].
    + rewrite nancorr_nth by assumption. apply corr_pair_range.
    + rewrite nancorr_outside by auto. split; reflexivity.
    + rewrite nancorr_outside by auto. split; reflexivity.
Qed.

(* ------------------------------------------------------------------ *)
(** ** Grouping: missing keys and the number of bars *)










(* ------------------------------------------------------------------ *)
(** ** The loader over several passes, and the placeholder *)

Section LoaderRuns.
Variable rng : Type.
Variable randn : rng -> (nat -> nat -> float) * rng.
Variable read_csv : UploadedFile -> outcome DataFrame.

(** X9.  Once a pass has returned a table, every later pass returns that
    table and leaves cache and generator as they are, whatever file is or
    is not uploaded, and without consulting the generator or the file
    reader: any other generator and reader give the same. *)
Theorem load_data_stable (w : world rng) (data : DataFrame)
  (uploaded_file : option UploadedFile) :
  fst (load_data rng randn read_csv uploaded_file w) = Return data ->
  let w1 := snd (load_data rng randn read_csv uploaded_file w) in
  forall randn' read_csv' uploaded_file',
    load_data rng randn' read_csv' uploaded_file' w1 = (Return data, w1).
Proof.
  intros H w1 randn' read_csv' up'.
  pose proof (load_data_fills rng randn read_csv w data uploaded_file H) as Hc.
  fold w1 in Hc. unfold load_data. now rewrite Hc.
Qed.

Lemma load_data_raises (w : world rng) (f : UploadedFile) (e : exn) :
  cached rng w = None -> read_csv f = Raise e ->
  load_data rng randn read_csv (Some f) w = (Raise e, mkWorld rng None (gen rng w)).
Proof.
  intros Hc Hr. unfold load_data, load_data_body. now rewrite Hc, Hr.
Qed.

(** X10.  A load that raises is not remembered: with an empty cache and an
    uploaded file the reader rejects, the pass ends with the reader's
    exception, the cache stays empty and the generator untouched, so the
    next pass runs the body again. *)
Theorem load_data_failure_not_cached (w : world rng) (f : UploadedFile) (e : exn) :
  cached rng w = None -> read_csv f = Raise e ->
  load_data rng randn read_csv (Some f) w = (Raise e, mkWorld rng None (gen rng w)) /\
  fst (load_data rng randn read_csv None (mkWorld rng None (gen rng w)))
  = Return (placeholder (fst (randn (gen rng w)))).
Proof.
  intros Hc Hr. unfold load_data, load_data_body. cbn [cached gen].
  rewrite Hc, Hr. split; [reflexivity|].
  destruct (randn (gen rng w)); reflexivity.
Qed.
End LoaderRuns.

Lemma load_data_stable_witness :
  let randn := fun g : nat => (fun _ _ : nat => 0%float, S g) in
  let read_csv := fun _ : UploadedFile => Raise (A := DataFrame) ValueError in
  let w := mkWorld nat None 0 in
  fst (load_data nat randn read_csv None w) = Return (placeholder (fun _ _ => 0%float)) /\
  load_data nat randn read_csv (Some (mkUploadedFile 1 "data.csv" "x"))
            (snd (load_data nat randn read_csv None w))
  = (Return (placeholder (fun _ _ => 0%float)), snd (load_data nat randn read_csv None w)).
Proof.
  intros randn read_csv w.
  assert (H : fst (load_data nat randn read_csv None w)
              = Return (placeholder (fun _ _ => 0%float))) by reflexivity.
  split; [exact H|].
  exact (load_data_stable nat randn read_csv w _ None H randn read_csv
                          (Some (mkUploadedFile 1 "data.csv" "x"))).
Defined.

Lemma load_data_failure_not_cached_witness :
  let randn := fun g : nat => (fun _ _ : nat => 0%float, S g) in
  let read_csv := fun _ : UploadedFile => Raise (A := DataFrame) ValueError in
  let w := mkWorld nat None 0 in
  let f := mkUploadedFile 1 "broken.csv" "" in
  (cached nat w = None /\ read_csv f = Raise ValueError) /\
  load_data nat randn read_csv (Some f) w = (Raise ValueError, mkWorld nat None 0).
Proof.
  intros randn read_csv w f.
  assert (H1 : cached nat w = None) by reflexivity.
  assert (H2 : read_csv f = Raise ValueError) by reflexivity.
  split; [split; assumption|].
  exact (proj1 (load_data_failure_not_cached nat randn read_csv w f ValueError H1 H2)).
Defined.

(** X11.  Whatever numbers the generator yields, the placeholder is a
    well-formed table of 100 rows whose five columns A to E are all
    numeric and none categorical, so the tabs offer all five and the bar
    chart has no category to group by. *)
Theorem placeholder_shape (sample : nat -> nat -> float) :
  well_formed (placeholder sample) /\
  len (placeholder sample) = 100 /\
  numeric_columns (placeholder sample) = ["A"; "B"; "C"; "D"; "E"] /\
  categorical_columns (placeholder sample) = [] /\
  forall i j c, nth_error (columns (placeholder sample)) j = Some c -> i < 100 ->
                nth_error (values c) i = Some (Float (sample i j)).
Proof.
  split; [|split; [reflexivity|split; [reflexivity|split; [reflexivity|]]]].
  - split.
    + unfold placeholder. cbn [columns index_len combine seq map].
      repeat constructor; cbn [values]; now rewrite length_map, length_seq.
    + cbn. repeat constructor; simpl; intuition discriminate.
  - intros i j c Hc Hi.
    assert (Hrow : nth_error (seq 0 100) i = Some i).
    { rewrite (nth_error_nth' _ 0) by (now rewrite length_seq).
      now rewrite seq_nth. }
    unfold placeholder in Hc. remember (seq 0 100) as rows eqn:Er.
    cbn [columns combine seq map fst snd] in Hc.
    do 5 (destruct j as [|j];
          [cbn [nth_error] in Hc; injection Hc as <-; cbn [values];
           now rewrite nth_error_map, Hrow|]).
    destruct j; discriminate Hc.
Qed.

(* ------------------------------------------------------------------ *)
(** ** Bounds of the missing-value counts *)

(** X12.  In a well-formed table every count of the missing-value table
    lies between 0 and the number of rows, and it is 0 exactly for the
    columns without a null cell. *)
Theorem missing_counts_bounded (df : DataFrame) (table : list MissingRow) :
  well_formed df -> missing_data df = Some table ->
  Forall (fun r => (0 <= Missing_Values r <= Z.of_nat (len df))%Z) table /\
  Forall2 (fun c r => Missing_Values r = 0%Z <-> Forall (fun v => isnull v = false) (values c))
          (columns df) table.
Proof.
  intros [Hlen _] Hm.
  rewrite missing_data_total in Hm. injection Hm as <-. split.
  - apply Forall_forall. intros r Hr. apply in_map_iff in Hr.
    destruct Hr as [c [<- Hc]]. cbn [Missing_Values].
    rewrite Forall_forall in Hlen. specialize (Hlen c Hc).
    unfold missing_count, len. pose proof (filter_length_le isnull (values c)). lia.
  - clear. induction (columns df) as [|c l IH]; constructor; [|exact IH].
    cbn [Missing_Values]. unfold missing_count.
    induction (values c) as [|v vs IHv]; simpl.
    + split; [constructor | reflexivity].
    + destruct (isnull v) eqn:E; simpl.
      * split; [lia | intro H; inversion H; congruence].
      * rewrite IHv. split; [now constructor | intro H; now inversion H].
Qed.

Lemma missing_counts_bounded_witness :
  let df := mkDataFrame 3 [mkSeries "a" float64 [Float nan; Float 1; Float 2];
                           mkSeries "s" object [Str "u"; Str "v"; Str "w"]] in
  (well_formed df /\ exists table, missing_data df = Some table) /\
  exists table,
    Forall (fun r => (0 <= Missing_Values r <= Z.of_nat (len df))%Z) table /\
    Forall2 (fun c r => Missing_Values r = 0%Z
                        <-> Forall (fun v => isnull v = false) (values c))
            (columns df) table.
Proof.
  intro df.
  assert (Hwf : well_formed df).
  { split.
    - repeat constructor.
    - simpl. repeat constructor; simpl; intuition discriminate. }
  pose proof (missing_data_total df) as Ht.
  split; [split; [exact Hwf | eexists; exact Ht]|].
  eexists. exact (missing_counts_bounded df _ Hwf Ht).
Defined.

(* ------------------------------------------------------------------ *)
(** ** The whole pass *)

Ltac prun :=
  cbv beta iota delta [page_bind page_emit page_emit_all page_ret page_raise].

Lemma script_run (df : DataFrame) (ss : session_state) :
  columns df <> [] ->
  exists table,
    missing_data df = Some table /\
    script (Return df) ss =
      (page_head
       ++ [St_expander "Raw Data";
           St_dataframe df;
           St_download_button "Download data as CSV" df "dashboard_data.csv" "text/csv";
           St_header "Data Summary";
           St_columns 2;
           Of_call (St_subheader "Descriptive Statistics");
           St_write_describe df;
           Of_call (St_subheader "Missing Values");
           St_write_table table;
           St_header "Visualizations";
           St_tabs ["Distribution"; "Correlation"; "Custom Plot"]]
       ++ map Of_call (trace (visualizations df ss))
       ++ footer,
       Return tt).
Proof.
  intro Hc. pose proof (missing_data_total df) as Hm.
  eexists. split; [exact Hm|].
  destruct (visualizations_run df ss) as [Hr _].
  unfold script. prun. unfold describe, missing_values, lift. rewrite Hm.
  destruct (columns df) as [|c l]; [congruence|].
  unfold result in Hr. unfold trace.
  destruct (visualizations df ss) as [t r]. cbn [fst snd] in *. subst r.
  reflexivity.
Qed.



Section ScriptRuns.
Variable rng : Type.
Variable randn : rng -> (nat -> nat -> float) * rng.
Variable read_csv : UploadedFile -> outcome DataFrame.

(** X14.  When the cache is empty and reading the uploaded file raises,
    the pass ends with that exception right after the file uploader:
    nothing of a table, no tab and no footer is rendered, and nothing is
    cached. *)
Theorem main_load_failure (w : world rng) (f : UploadedFile) (e : exn)
  (ss : session_state) :
  cached rng w = None -> read_csv f = Raise e ->
  main rng randn read_csv (Some f) ss w
  = ((page_head, Raise e), mkWorld rng None (gen rng w)).
Proof.
  intros Hc Hr. unfold main.
  rewrite (load_data_raises rng randn read_csv w f e Hc Hr).
  reflexivity.
Qed.

(** X15.  The first visit, with an empty cache and no upload, always runs
    to the footer: the table is the placeholder, it is cached, and the
    download button offers it. *)
Theorem main_first_visit (g : rng) (ss : session_state) :
  let run := main rng randn read_csv None ss (mkWorld rng None g) in
  let df := placeholder (fst (randn g)) in
  snd (fst run) = Return tt /\
  cached rng (snd run) = Some df /\
  In (St_download_button "Download data as CSV" df "dashboard_data.csv" "text/csv")
     (fst (fst run)) /\
  exists t, fst (fst run) = page_head ++ t ++ footer.
Proof.
  intros run df. unfold run, main, load_data, load_data_body. cbn [cached gen].
  destruct (randn g) as [sample g'] eqn:Eg. cbn [fst snd].
  assert (Hc : columns (placeholder sample) <> []) by discriminate.
  destruct (script_run (placeholder sample) ss Hc) as [table [_ E]].
  unfold df. rewrite E. cbn [fst snd].
  split; [reflexivity|]. split; [reflexivity|]. split.
  - apply in_or_app. right. apply in_or_app. left. simpl. auto.
  - match goal with
    | |- exists t, page_head ++ ?a ++ ?b ++ footer = _ => exists (a ++ b)
    end.
    now rewrite <- app_assoc.
Qed.

End ScriptRuns.

Lemma main_load_failure_witness :
  let randn := fun g : nat => (fun _ _ : nat => 0%float, S g) in
  let read_csv := fun _ : UploadedFile => Raise (A := DataFrame) ValueError in
  let w := mkWorld nat None 0 in
  let f := mkUploadedFile 1 "broken.csv" "" in
  (cached nat w = None /\ read_csv f = Raise ValueError) /\
  main nat randn read_csv (Some f) (fun _ => None) w
  = ((page_head, Raise ValueError), mkWorld nat None 0).
Proof.
  intros randn read_csv w f.
  assert (H1 : cached nat w = None) by reflexivity.
  assert (H2 : read_csv f = Raise ValueError) by reflexivity.
  split; [split; assumption|].
  exact (main_load_failure nat randn read_csv w f ValueError (fun _ => None) H1 H2).
Defined.


(* ------------------------------------------------------------------ *)
(** ** The download line by line, and texts the reader rejects *)

Module CsvMore.
Import Csv.




Lemma blank_lines_skipped (n : nat) :
  tokenize_bytes parser0 (blank_lines n) = parser0.
Proof. induction n as [|n IH]; [reflexivity | exact IH]. Qed.

Lemma open_quote_stays (f : string) (acc : string) fs ls :
  quote_free f = true ->
  state (tokenize_bytes (mkParser IN_QUOTED_FIELD acc fs ls) f) = IN_QUOTED_FIELD.
Proof.
  revert acc. induction f as [|c f IH]; intros acc H; [reflexivity|].
  cbn [quote_free] in H. apply andb_prop in H. destruct H as [Hc Hf].
  apply negb_true_iff in Hc.
  cbn [tokenize_bytes]. rewrite CsvFacts.step_quoted, Hc. now apply IH.
Qed.

(** X18.  The reader rejects a text of empty lines only, the empty text
    included, as holding no data ([EmptyDataError]), and a text whose
    first field opens a quote that is never closed as malformed
    ([ParserError]). *)
Theorem read_csv_rejects (n : nat) (f : string) :
  read_csv (blank_lines n) = EmptyDataError /\
  (quote_free f = true -> read_csv (String dquote f) = ParserError).
Proof.
  split.
  - unfold read_csv, tokenize. now rewrite blank_lines_skipped.
  - intro Hf. unfold read_csv, tokenize. cbn [tokenize_bytes].
    change (step parser0 dquote) with (mkParser IN_QUOTED_FIELD EmptyString [] []).
    unfold handle_eof. now rewrite open_quote_stays.
Qed.

Lemma read_csv_rejects_witness :
  quote_free "a,b" = true /\
  read_csv (String dquote "a,b") = ParserError.
Proof.
  assert (H : quote_free "a,b" = true) by reflexivity.
  split; [exact H|].
  exact (proj2 (read_csv_rejects 0 "a,b") H).
Defined.

End CsvMore.
